(** * A JSON-RPC listener over a newline-delimited stream

    Shallow embedding of the package [internal/jsonrpc] of the Go packages
    driver: the envelope and error model ([types.go]) and the typed handler
    adapter, the cancellation registry and the listener ([handler.go]).

    Conventions of the embedding.
    - Go's [int] is [Z]; [[]byte] is [list byte]; [string] is [string].
    - Go's [any] is [option dyn]: [None] is the nil interface, [Some v] a
      non-nil dynamic value of the abstract type [dyn].
    - A [context.CancelFunc] is identified with the context it cancels; the
      calls made to cancel functions are recorded in ghost lists.
    - Library functions whose result depends on the dynamic type of their
      argument ([json.Marshal], [json.Unmarshal], [fmt.Sprintf]) are the
      methods of the class [GoLib]; everything the package itself computes
      is a definition. *)

From Stdlib Require Import ZArith String Ascii List Lia Permutation.
From Stdlib.Strings Require Import Byte.
From Stdlib Require DecimalString.
From stdpp Require Import gmap strings list fin_maps.

Set Default Proof Using "Type".

(** ** Bytes *)

(** The white space of [unicode.IsSpace], as UTF-8 byte sequences:
    the six ASCII characters, U+0085, U+00A0, U+1680, U+2000..U+200A,
    U+2028, U+2029, U+202F, U+205F and U+3000. *)
Definition space_runes : list (list byte) :=
  [ [x09]; [x0a]; [x0b]; [x0c]; [x0d]; [x20];
    [xc2; x85]; [xc2; xa0];
    [xe1; x9a; x80];
    [xe2; x80; x80]; [xe2; x80; x81]; [xe2; x80; x82]; [xe2; x80; x83];
    [xe2; x80; x84]; [xe2; x80; x85]; [xe2; x80; x86]; [xe2; x80; x87];
    [xe2; x80; x88]; [xe2; x80; x89]; [xe2; x80; x8a];
    [xe2; x80; xa8]; [xe2; x80; xa9]; [xe2; x80; xaf];
    [xe2; x81; x9f];
    [xe3; x80; x80] ].

Fixpoint strip_prefix (p l : list byte) : option (list byte) :=
  match p, l with
  | [], _ => Some l
  | a :: p', b :: l' => if Byte.eqb a b then strip_prefix p' l' else None
  | _ :: _, [] => None
  end.

Fixpoint strip_any (ps : list (list byte)) (l : list byte) : option (list byte) :=
  match ps with
  | [] => None
  | p :: ps' =>
      match strip_prefix p l with
      | Some l' => Some l'
      | None => strip_any ps' l
      end
  end.

Fixpoint trim_left (ps : list (list byte)) (fuel : nat) (l : list byte) : list byte :=
  match fuel with
  | O => l
  | S n =>
      match strip_any ps l with
      | Some l' => trim_left ps n l'
      | None => l
      end
  end.

(** [bytes.TrimSpace]: leading runes are decoded forwards, trailing runes
    backwards; a trailing space rune is a suffix equal to its encoding. *)
Definition TrimSpace (s : list byte) : list byte :=
  let l := trim_left space_runes (length s) s in
  rev (trim_left (map (@rev byte) space_runes) (length l) (rev l)).

(** ** Contexts *)

(** A context is known by a number; [context.WithCancel] hands out the next
    one, and the cancel function it returns is the number of the context it
    cancels. *)
Definition Context := nat.
Definition CancelFunc := nat.

(** ** The envelope and error model ([types.go]) *)

Definition NotificationCancelRequest : string := "$/cancelRequest".

Definition ErrorCode := Z.

Definition ErrorCodeParseError : ErrorCode := (-32700)%Z.
Definition ErrorCodeInvalidRequest : ErrorCode := (-32600)%Z.
Definition ErrorCodeMethodNotFound : ErrorCode := (-32601)%Z.
Definition ErrorCodeInvalidParams : ErrorCode := (-32602)%Z.
Definition ErrorCodeInternalError : ErrorCode := (-32603)%Z.

Record Request := mkRequest {
  req_ID : Z;
  req_Method : string;
  req_Params : list byte
}.

Record Error {dyn : Type} := mkError {
  Code : ErrorCode;
  Message : string;
  Data : option dyn
}.
Arguments Error : clear implicits.
Arguments mkError {dyn} _ _ _.

Record Response {dyn : Type} := mkResponse {
  rsp_ID : Z;
  rsp_Result : option dyn;
  rsp_Error : option (Error dyn)
}.
Arguments Response : clear implicits.
Arguments mkResponse {dyn} _ _ _.

(** Go's [error] values, as far as the package tells them apart: the two
    sentinels the read loop tests for, an error of some other type with its
    message, a [*Error] of this package, and an error that wraps another one
    (what [fmt.Errorf] builds for the verb [%w]), with its own message. *)
Inductive GoError {dyn : Type} :=
| ErrEOF
| ErrClosed
| ErrOpaque (msg : string)
| ErrRpc (e : Error dyn)
| ErrWrap (msg : string) (inner : GoError).
Arguments GoError : clear implicits.

Inductive result (dyn A : Type) :=
| Ok (a : A)
| Fail (e : GoError dyn).
Arguments Ok {dyn A} _.
Arguments Fail {dyn A} _.

(** The arguments the package passes to [fmt] verbs. *)
Inductive fmt_arg {dyn : Type} :=
| ArgString (s : string)
| ArgInt (n : Z)
| ArgError (e : GoError dyn)
| ArgAny (r : dyn).
Arguments fmt_arg : clear implicits.

(** What a handler invocation ends in: a return of [(any, error)], or a
    panic with the value that [recover] yields. *)
Inductive Outcome {dyn : Type} :=
| Returned (out : option dyn) (err : option (GoError dyn))
| Panicked (r : dyn).
Arguments Outcome : clear implicits.

(** The library functions the package calls: [fmt.Sprintf], [json.Marshal]
    on a [*Response], [json.Unmarshal] into a [Request], and
    [json.Unmarshal] into an [int] variable that holds [0]. *)
Class GoLib (dyn : Type) := {
  fmt_Sprintf : string → list (fmt_arg dyn) → string;
  json_Marshal : Response dyn → result dyn (list byte);
  json_Unmarshal_Request : list byte → result dyn Request;
  json_Unmarshal_int : list byte → result dyn Z
}.

(** [json.Unmarshal] into a variable of type [T]. *)
Class JSONType (dyn T : Type) := {
  json_Unmarshal : list byte → result dyn T
}.

(** The conversion of a [*T] to [any]; the interface it yields is never nil,
    also when the pointer is. *)
Class Boxed (dyn T : Type) := {
  to_any : option T → dyn
}.

Section Types.

Context {dyn : Type} `{!GoLib dyn}.

(** [func (err *Error) Error() string] *)
Definition Error_Error (err : Error dyn) : string :=
  fmt_Sprintf "%s (code: %d)" [ArgString (Message err); ArgInt (Code err)].

(** The method [Error()] of an [error]. *)
Definition error_string (err : GoError dyn) : string :=
  match err with
  | ErrEOF => "EOF"
  | ErrClosed => "use of closed network connection"
  | ErrOpaque msg => msg
  | ErrRpc e => Error_Error e
  | ErrWrap msg _ => msg
  end.

(** [fmt.Errorf] with one [%w] operand. *)
Definition fmt_Errorf_w (format : string) (err : GoError dyn) : GoError dyn :=
  ErrWrap (fmt_Sprintf format [ArgError err]) err.

(** [func (code ErrorCode) Errorf(format string, args ...any) *Error] *)
Definition Errorf (code : ErrorCode) (format : string) (args : list (fmt_arg dyn)) : Error dyn :=
  let msg := if (0 <? length args)%nat then fmt_Sprintf format args else format in
  mkError code msg None.

(** [func NewError(code ErrorCode, err error) *Error] *)
Definition NewError (code : ErrorCode) (err : GoError dyn) : Error dyn :=
  mkError code (error_string err) None.

(** [func (err *Error) AsResponse(reqID int) *Response] *)
Definition AsResponse (err : Error dyn) (reqID : Z) : Response dyn :=
  mkResponse reqID None (Some err).

(** [errors.Unwrap], and [errors.As] with a target of type [**Error]: the
    first [*Error] on the chain of wrapped errors. *)
Definition Unwrap (err : GoError dyn) : option (GoError dyn) :=
  match err with
  | ErrWrap _ inner => Some inner
  | _ => None
  end.

Fixpoint errors_As (err : GoError dyn) : option (Error dyn) :=
  match err with
  | ErrRpc e => Some e
  | ErrWrap _ inner => errors_As inner
  | _ => None
  end.

(** [errors.Is] against the sentinels [io.EOF] and [net.ErrClosed]. *)
Fixpoint errors_Is_EOF (err : GoError dyn) : bool :=
  match err with
  | ErrEOF => true
  | ErrWrap _ inner => errors_Is_EOF inner
  | _ => false
  end.

Fixpoint errors_Is_ErrClosed (err : GoError dyn) : bool :=
  match err with
  | ErrClosed => true
  | ErrWrap _ inner => errors_Is_ErrClosed inner
  | _ => false
  end.

(** [func WrapError(err error) *Error] *)
Definition WrapError (err : GoError dyn) : Error dyn :=
  match errors_As err with
  | Some e => e
  | None => NewError ErrorCodeInternalError err
  end.

End Types.

(** ** The typed handler adapter ([handler.go]) *)

(** A handler runs in a world of type [H], which it may change: the run
    maps the world before to the outcome and the world after. *)
Definition RequestHandler (dyn H : Type) : Type :=
  Context → list byte → H → Outcome dyn * H.

(** What the business function of a typed handler ends in: a return of a
    [*TResponse] and an [error], or a panic. *)
Inductive FuncOutcome {dyn TResponse : Type} :=
| FuncReturned (out : option TResponse) (err : option (GoError dyn))
| FuncPanicked (r : dyn).
Arguments FuncOutcome : clear implicits.

Record typedHandler (dyn H TRequest TResponse : Type) := mkTypedHandler {
  handleFunc : Context → TRequest → H → FuncOutcome dyn TResponse * H
}.
Arguments mkTypedHandler {dyn H TRequest TResponse} _.
Arguments handleFunc {dyn H TRequest TResponse} _ _ _ _.

Section TypedHandler.

Context {dyn H TRequest TResponse : Type}.
Context `{!GoLib dyn} `{!JSONType dyn TRequest} `{!Boxed dyn TResponse}.

(** The return statement [return h.handleFunc(ctx, req)]: the pointer
    becomes an [any], the error and a panic pass through. *)
Definition return_func (o : FuncOutcome dyn TResponse) : Outcome dyn :=
  match o with
  | FuncReturned out err => Returned (Some (to_any out)) err
  | FuncPanicked r => Panicked r
  end.

(** [func (h *typedHandler[TRequest, TResponse]) HandleRequest] *)
Definition HandleRequest (h : typedHandler dyn H TRequest TResponse)
    : RequestHandler dyn H :=
  fun ctx params w =>
    match json_Unmarshal params with
    | Fail err => (Returned None (Some (ErrRpc (NewError ErrorCodeParseError err))), w)
    | Ok req =>
        let '(o, w') := handleFunc h ctx req w in
        (return_func o, w')
    end.

(** [func NewHandler] *)
Definition NewHandler (fn : Context → TRequest → H → FuncOutcome dyn TResponse * H)
    : RequestHandler dyn H :=
  HandleRequest (mkTypedHandler fn).

(** A business function that also writes down each call it receives. *)
Definition traced (fn : Context → TRequest → H → FuncOutcome dyn TResponse * H)
    : Context → TRequest → H * list (Context * TRequest)
      → FuncOutcome dyn TResponse * (H * list (Context * TRequest)) :=
  fun ctx req w =>
    let '(o, w') := fn ctx req w.1 in
    (o, (w', w.2 ++ [(ctx, req)])).

End TypedHandler.

(** ** The cancellation registry ([handler.go]) *)

(** [m] is the [sync.Map] of the struct. [fired] is a ghost field: the
    cancel functions the registry has called, in order. *)
Record requestCanceler := mkCanceler {
  m : gmap Z CancelFunc;
  fired : list CancelFunc
}.

Definition newCanceler : requestCanceler := mkCanceler ∅ [].

(** [sync.Map.LoadAndDelete] *)
Definition LoadAndDelete (key : Z) (mp : gmap Z CancelFunc)
    : gmap Z CancelFunc * option CancelFunc :=
  (delete key mp, mp !! key).

(** [func (rc *requestCanceler) cancelRequest(reqID int)] *)
Definition cancelRequest (reqID : Z) (rc : requestCanceler) : requestCanceler :=
  match LoadAndDelete reqID (m rc) with
  | (_, None) => rc
  | (mp, Some cancelFn) => mkCanceler mp (fired rc ++ [cancelFn])
  end.

(** [func (rc *requestCanceler) finishRequest(reqID int) bool] *)
Definition finishRequest (reqID : Z) (rc : requestCanceler) : requestCanceler * bool :=
  let '(mp, v) := LoadAndDelete reqID (m rc) in
  (mkCanceler mp (fired rc), bool_decide (is_Some v)).

(** The values of a map, in the order [Range] visits them. *)
Definition values (mp : gmap Z CancelFunc) : list CancelFunc := (map_to_list mp).*2.

(** [func (rc *requestCanceler) cancelAll()]: [Range] calls every value,
    then [Clear] empties the map. *)
Definition cancelAll (rc : requestCanceler) : requestCanceler :=
  mkCanceler ∅ (fired rc ++ values (m rc)).

(** [func (rc *requestCanceler) addRequest(reqID int, cancelFn context.CancelFunc)] *)
Definition addRequest (reqID : Z) (cancelFn : CancelFunc) (rc : requestCanceler)
    : requestCanceler :=
  mkCanceler (<[reqID := cancelFn]> (m rc)) (fired rc).

(** Sequences of calls on one registry, one after the other. [Store] and
    [LoadAndDelete] are atomic. [cancelAll] is not, but it runs when
    [ListenStream] returns, after the loop that makes the calls of
    [addRequest] and [cancelRequest]: only [finishRequest], which calls
    nothing, can run beside it. *)
Inductive registry_call :=
| CallAdd (reqID : Z) (cancelFn : CancelFunc)
| CallCancel (reqID : Z)
| CallFinish (reqID : Z)
| CallCancelAll.

Definition registry_step (rc : requestCanceler) (c : registry_call) : requestCanceler :=
  match c with
  | CallAdd reqID cancelFn => addRequest reqID cancelFn rc
  | CallCancel reqID => cancelRequest reqID rc
  | CallFinish reqID => (finishRequest reqID rc).1
  | CallCancelAll => cancelAll rc
  end.

Definition registry_run (calls : list registry_call) (rc : requestCanceler)
    : requestCanceler :=
  foldl registry_step rc calls.

(** The cancel functions a sequence of calls registers. *)
Fixpoint registered (calls : list registry_call) : list CancelFunc :=
  match calls with
  | [] => []
  | CallAdd _ cancelFn :: calls' => cancelFn :: registered calls'
  | _ :: calls' => registered calls'
  end.

(** How often [f] occurs in a list of cancel functions. *)
Definition times (f : CancelFunc) (l : list CancelFunc) : nat :=
  length (filter (λ g, g = f) l).

(** How often [f] has been called by the registry, plus how often the
    registry still holds it. *)
Definition held (f : CancelFunc) (rc : requestCanceler) : nat :=
  times f (fired rc) + times f (values (m rc)).

(** ** The listener ([handler.go]) *)

(** The connection, as the writes of the listener see it: [sent] holds the
    argument of every [Write] that went through, in order, and [broken] the
    error that [Write] returns once the connection has failed. *)
Record Conn {dyn : Type} := mkConn {
  sent : list (list byte);
  broken : option (GoError dyn)
}.
Arguments Conn : clear implicits.
Arguments mkConn {dyn} _ _.

(** [type Listener struct] *)
Record Listener {dyn H : Type} := mkListener {
  canceler : requestCanceler;
  handlers : gmap string (RequestHandler dyn H)
}.
Arguments Listener : clear implicits.
Arguments mkListener {dyn H} _ _.

(** What the goroutine started by [handleRequest] closes over. *)
Record Task {dyn H : Type} := mkTask {
  task_ctx : Context;
  task_req : Request;
  task_handler : RequestHandler dyn H;
  task_reqCtx : Context;
  task_cancelFn : CancelFunc
}.
Arguments Task : clear implicits.
Arguments mkTask {dyn H} _ _ _ _ _.

(** The state a listener works on: the listener itself, its connection, the
    goroutines it has started (their bodies are run by [runTask], when the
    scheduler picks them), the world of the handlers, and three ghost
    fields: the number of the next context, the
    parent of each derived context, and the cancel functions that deferred
    statements have called directly. *)
Record State {dyn H : Type} := mkState {
  listener : Listener dyn H;
  conn : Conn dyn;
  goroutines : list (Task dyn H);
  world : H;
  next_ctx : nat;
  derived : list (Context * Context);
  released : list CancelFunc
}.
Arguments State : clear implicits.
Arguments mkState {dyn H} _ _ _ _ _ _ _.

(** One return of [reader.ReadBytes('\n')], with what [connCtx.Err() != nil]
    evaluates to if the loop gets to test it after this read. *)
Record ReadEvent {dyn : Type} := mkRead {
  rd_data : list byte;
  rd_err : option (GoError dyn);
  rd_ctxErr : bool
}.
Arguments ReadEvent : clear implicits.
Arguments mkRead {dyn} _ _ _.

Section ListenerDefs.

Context {dyn H : Type} `{!GoLib dyn}.

(** [func NewListener(handlers map[string]RequestHandler) *Listener] *)
Definition NewListener (hs : gmap string (RequestHandler dyn H)) : Listener dyn H :=
  mkListener newCanceler hs.

Definition with_canceler (rc : requestCanceler) (st : State dyn H) : State dyn H :=
  mkState (mkListener rc (handlers (listener st))) (conn st) (goroutines st)
          (world st) (next_ctx st) (derived st) (released st).

Definition with_conn (c : Conn dyn) (st : State dyn H) : State dyn H :=
  mkState (listener st) c (goroutines st) (world st) (next_ctx st) (derived st)
          (released st).

Definition with_world (w : H) (st : State dyn H) : State dyn H :=
  mkState (listener st) (conn st) (goroutines st) w (next_ctx st) (derived st)
          (released st).

(** [go func() { ... }()] *)
Definition spawn (t : Task dyn H) (st : State dyn H) : State dyn H :=
  mkState (listener st) (conn st) (goroutines st ++ [t]) (world st) (next_ctx st)
          (derived st) (released st).

(** A direct call [cancelFn()]. *)
Definition release (cancelFn : CancelFunc) (st : State dyn H) : State dyn H :=
  mkState (listener st) (conn st) (goroutines st) (world st) (next_ctx st)
          (derived st) (released st ++ [cancelFn]).

(** [context.WithCancel(parent)] *)
Definition WithCancel (parent : Context) (st : State dyn H)
    : Context * CancelFunc * State dyn H :=
  let c := next_ctx st in
  (c, c, mkState (listener st) (conn st) (goroutines st) (world st) (S c)
                 ((c, parent) :: derived st) (released st)).

(** [dst.Write(p)] *)
Definition conn_Write (p : list byte) (c : Conn dyn) : Conn dyn * option (GoError dyn) :=
  match broken c with
  | Some err => (c, Some err)
  | None => (mkConn (sent c ++ [p]) None, None)
  end.

(** [make([]byte, n)]: a slice of [n] zero bytes. *)
Definition make_bytes (n : nat) : list byte := repeat x00 n.

(** [bytes.NewBuffer(buf)]: a buffer whose contents are those of [buf]. *)
Definition bytes_NewBuffer (buf : list byte) : list byte := buf.

(** [json.NewEncoder(buff).Encode(v)]: the encoding of [v] and a newline
    are appended to the buffer. *)
Definition Encoder_Encode (buff : list byte) (v : Response dyn)
    : result dyn (list byte) :=
  match json_Marshal v with
  | Fail err => Fail err
  | Ok enc => Ok (buff ++ enc ++ [x0a])
  end.

(** [func (l *Listener) serveResponse(dst io.Writer, rsp *Response) error] *)
Definition serveResponse (dst : Conn dyn) (rsp : Response dyn)
    : Conn dyn * option (GoError dyn) :=
  let buff := bytes_NewBuffer (make_bytes 1024) in
  match Encoder_Encode buff rsp with
  | Fail err => (dst, Some (fmt_Errorf_w "failed to serialize response: %w" err))
  | Ok bytes => conn_Write bytes dst
  end.

(** [func (l *Listener) serveError(dst io.Writer, reqID int, e *Error) error] *)
Definition serveError (dst : Conn dyn) (reqID : Z) (e : Error dyn)
    : Conn dyn * option (GoError dyn) :=
  serveResponse dst (AsResponse e reqID).

(** [serveResponse] on the connection of a state. *)
Definition serve (rsp : Response dyn) (st : State dyn H)
    : State dyn H * option (GoError dyn) :=
  let '(c, err) := serveResponse (conn st) rsp in (with_conn c st, err).

(** [func (l *Listener) handleNotification(req *Request) error] *)
Definition handleNotification (req : Request) (st : State dyn H)
    : State dyn H * option (GoError dyn) :=
  if negb (String.eqb (req_Method req) NotificationCancelRequest) then
    (st, Some (ErrRpc (Errorf ErrorCodeMethodNotFound
                         "unsupported notification %q" [ArgString (req_Method req)])))
  else
    match json_Unmarshal_int (req_Params req) with
    | Fail err =>
        (st, Some (ErrRpc (Errorf ErrorCodeInvalidParams
                             "cannot read params: %s" [ArgError err])))
    | Ok reqID =>
        if (reqID =? 0)%Z then
          (st, Some (ErrRpc (Errorf ErrorCodeInvalidParams "missing request ID" [])))
        else
          (with_canceler (cancelRequest reqID (canceler (listener st))) st, None)
    end.

(** [func (l *Listener) handleRequest(ctx context.Context, w io.Writer, data []byte) error],
    up to the [go] statement. *)
Definition handleRequest (ctx : Context) (data : list byte) (st : State dyn H)
    : State dyn H * option (GoError dyn) :=
  match json_Unmarshal_Request data with
  | Fail err => serve (AsResponse (NewError ErrorCodeParseError err) 0) st
  | Ok req =>
      if (req_ID req =? 0)%Z then
        match handleNotification req st with
        | (st', Some err) => serve (AsResponse (WrapError err) 0) st'
        | (st', None) => (st', None)
        end
      else
        match handlers (listener st) !! req_Method req with
        | None =>
            let err := Errorf ErrorCodeMethodNotFound
                         "method not found: %q" [ArgString (req_Method req)] in
            serve (AsResponse err (req_ID req)) st
        | Some handler =>
            let '(reqCtx, cancelFn, st1) := WithCancel ctx st in
            let st2 := with_canceler
                         (addRequest (req_ID req) cancelFn (canceler (listener st1))) st1 in
            (spawn (mkTask ctx req handler reqCtx cancelFn) st2, None)
        end
  end.

(** The two deferred statements of the goroutine that run first:
    [l.canceler.finishRequest(req.ID)], then [cancelFn()]. *)
Definition task_deferred (t : Task dyn H) (st : State dyn H) : State dyn H :=
  release (task_cancelFn t)
    (with_canceler (finishRequest (req_ID (task_req t)) (canceler (listener st))).1 st).

(** The body of the goroutine that [handleRequest] starts. [ctxErr] is what
    [ctx.Err() != nil] evaluates to when the body tests it. After a panic
    of the handler the deferred statements run in reverse order of their
    [defer]: the two of [task_deferred], then the function that recovers. *)
Definition runTask (t : Task dyn H) (ctxErr : bool) (st : State dyn H) : State dyn H :=
  let req := task_req t in
  let '(o, w) := task_handler t (task_reqCtx t) (req_Params req) (world st) in
  let st0 := with_world w st in
  match o with
  | Returned out err =>
      let rsp := mkResponse (req_ID req) out (WrapError <$> err) in
      if ctxErr then task_deferred t st0
      else task_deferred t (serve rsp st0).1
  | Panicked r =>
      let st1 := task_deferred t st0 in
      (serve (AsResponse (Errorf ErrorCodeInternalError "%s" [ArgAny r]) (req_ID req)) st1).1
  end.

(** The [for] loop of [ListenStream] over the returns of [ReadBytes].
    [Some res] is the value the loop returns; [None] means that the reads
    are used up and the loop waits in [ReadBytes]. *)
Fixpoint readLoop (connCtx : Context) (reads : list (ReadEvent dyn)) (st : State dyn H)
    : State dyn H * option (option (GoError dyn)) :=
  match reads with
  | [] => (st, None)
  | rd :: rest =>
      let after_read (st' : State dyn H) :=
        match rd_err rd with
        | None => readLoop connCtx rest st'
        | Some err =>
            if errors_Is_EOF err || errors_Is_ErrClosed err then (st', Some None)
            else if rd_ctxErr rd then (st', Some None)
            else (st', Some (Some (fmt_Errorf_w "connection read failed: %w" err)))
        end in
      if (0 <? length (rd_data rd))%nat then
        let trimmed := TrimSpace (rd_data rd) in
        if (length trimmed =? 0)%nat then readLoop connCtx rest st
        else after_read (handleRequest connCtx trimmed st).1
      else after_read st
  end.

(** [func (l *Listener) ListenStream(ctx context.Context, conn net.Conn) error].
    When the loop returns, the deferred [l.canceler.cancelAll()] and
    [cancelFn()] run, in this order. The goroutine that closes the
    connection once [ctx] is done shows in the reads only: [ReadBytes] then
    returns [net.ErrClosed]. *)
Definition ListenStream (ctx : Context) (reads : list (ReadEvent dyn)) (st : State dyn H)
    : State dyn H * option (option (GoError dyn)) :=
  let '(connCtx, cancelFn, st1) := WithCancel ctx st in
  match readLoop connCtx reads st1 with
  | (st2, None) => (st2, None)
  | (st2, Some res) =>
      (release cancelFn (with_canceler (cancelAll (canceler (listener st2))) st2), Some res)
  end.

End ListenerDefs.

(** ** Goroutines that write at the same time *)

(** [serveResponse] takes no lock: a goroutine that has reached
    [dst.Write(p)] has the bytes [p] pending, and the writer moves bytes of
    the pending calls to the wire in the order the scheduler picks. A state
    is the pending bytes of each goroutine and the wire. *)
Definition Wire : Type := list (list byte) * list byte.

(** Goroutine [g] gets the next [n] of its pending bytes onto the wire. *)
Definition transfer (s : Wire) (gn : nat * nat) : Wire :=
  match s.1 !! gn.1 with
  | Some p => (<[gn.1 := drop gn.2 p]> s.1, s.2 ++ take gn.2 p)
  | None => s
  end.

Definition run_schedule (sched : list (nat * nat)) (s : Wire) : Wire :=
  foldl transfer s sched.

(** The pending bytes of goroutine [g]; none for a goroutine that is not
    there. *)
Definition pending_of (pending : list (list byte)) (g : nat) : list byte :=
  default [] (pending !! g).

(** A writer whose [Write] is atomic: the goroutine picked gets all of its
    pending bytes onto the wire in one step. *)
Definition transfer_all (s : Wire) (g : nat) : Wire :=
  transfer s (g, length (pending_of s.1 g)).

Definition run_atomic (order : list nat) (s : Wire) : Wire :=
  foldl transfer_all s order.

(** Every pending call is through. *)
Definition all_written (s : Wire) : bool :=
  forallb (λ p, (length p =? 0)%nat) s.1.

(** The bytes [serveResponse] hands to [Write] for an encoding [enc]. *)
Definition frame (enc : list byte) : list byte :=
  repeat x00 1024 ++ enc ++ [x0a].

(** ** The driver service ([internal/server/server.go]) *)

(** [type RuntimeInfo struct] *)
Record RuntimeInfo := mkRuntimeInfo {
  GoMinorVersion : Z;
  Compiler : string;
  Arch : string
}.

(** The zero value of [RuntimeInfo]. *)
Definition zero_RuntimeInfo : RuntimeInfo := mkRuntimeInfo 0 "" "".

(** [type DriverRequestEnvelope struct]; [DR] is [packages.DriverRequest]. *)
Record DriverRequestEnvelope {DR : Type} := mkEnvelope {
  WorkDir : string;
  Patterns : list string;
  DriverRequest : DR
}.
Arguments DriverRequestEnvelope : clear implicits.

(** The fields of [packages.DriverResponse] that the service sets; [Package]
    is [packages.Package]. *)
Record DriverResponse {Package : Type} := mkDriverResponse {
  NotHandled : bool;
  dr_Compiler : string;
  dr_Arch : string;
  Roots : list string;
  Packages : list Package;
  GoVersion : Z
}.
Arguments DriverResponse : clear implicits.
Arguments mkDriverResponse {Package} _ _ _ _ _ _.

(** [type Service struct] *)
Record Service := mkService {
  ri : RuntimeInfo
}.

Definition is_digit (c : ascii) : bool :=
  (48 <=? nat_of_ascii c)%nat && (nat_of_ascii c <=? 57)%nat.

Definition digit_val (c : ascii) : Z := Z.of_nat (nat_of_ascii c) - 48.

(** The longest run of digits at the head of a string. *)
Fixpoint leading_digits (s : string) : string :=
  match s with
  | EmptyString => EmptyString
  | String c s' => if is_digit c then String c (leading_digits s') else EmptyString
  end.

Fixpoint strip_string (p s : string) : option string :=
  match p, s with
  | EmptyString, _ => Some s
  | String a p', String b s' => if Ascii.eqb a b then strip_string p' s' else None
  | String _ _, EmptyString => None
  end.

(** A match of [go1\.(\d+)] that starts at the head of [s]: the digits the
    group captures. *)
Definition match_go1 (s : string) : option string :=
  match strip_string "go1." s with
  | Some rest =>
      match leading_digits rest with
      | EmptyString => None
      | ds => Some ds
      end
  | None => None
  end.

(** The leftmost match of [(?m)^go1\.(\d+)] from the head of [s] on; [bol]
    tells whether the head of [s] is at the beginning of a line, that is at
    the beginning of the text or after a newline. *)
Fixpoint find_go1 (bol : bool) (s : string) : option string :=
  match s with
  | EmptyString => None
  | String c s' =>
      match (if bol then match_go1 s else None) with
      | Some ds => Some ds
      | None => find_go1 (Ascii.eqb c "010"%char) s'
      end
  end.

(** [goMinorVerRegex.FindStringSubmatch(rv)]: [None] for [nil], else the
    submatch [matches[1]]. *)
Definition FindStringSubmatch (rv : string) : option string := find_go1 true rv.

Fixpoint parse_digits (acc : Z) (s : string) : option Z :=
  match s with
  | EmptyString => Some acc
  | String c s' =>
      if is_digit c then parse_digits (10 * acc + digit_val c) s' else None
  end.

(** [strconv.Atoi] for an [int] of [intSize] bits: [None] when it returns an
    error. *)
Definition Atoi (intSize : Z) (s : string) : option Z :=
  let '(neg, body) :=
    match s with
    | String c s' =>
        if Ascii.eqb c "+"%char then (false, s')
        else if Ascii.eqb c "-"%char then (true, s')
        else (false, s)
    | EmptyString => (false, s)
    end in
  match body with
  | EmptyString => None
  | _ =>
      match parse_digits 0 body with
      | None => None
      | Some v =>
          if neg then (if (v <=? 2 ^ (intSize - 1))%Z then Some (- v)%Z else None)
          else (if (v <? 2 ^ (intSize - 1))%Z then Some v else None)
      end
  end.

Section Server.

Context {dyn H DR Package : Type} `{!GoLib dyn}.
Context `{!JSONType dyn (option (DriverRequestEnvelope DR))}.
Context `{!Boxed dyn (DriverResponse Package)}.

(** [func NewService(ri RuntimeInfo) Service] *)
Definition NewService (info : RuntimeInfo) : Service := mkService info.

(** [func (svc Service) handleDriverRequest] *)
Definition handleDriverRequest (svc : Service) (ctx : Context)
    (req : option (DriverRequestEnvelope DR)) (w : H)
    : FuncOutcome dyn (DriverResponse Package) * H :=
  (FuncReturned
     (Some (mkDriverResponse true (Compiler (ri svc)) (Arch (ri svc)) [] []
              (GoMinorVersion (ri svc))))
     None, w).

(** [func (svc Service) Listener() *jsonrpc.Listener] *)
Definition Service_Listener (svc : Service) : Listener dyn H :=
  let hs : gmap string (RequestHandler dyn H) :=
    {[ "goPackageDriver/query"%string := NewHandler (handleDriverRequest svc) ]} in
  NewListener hs.

(** [func BuildRuntimeInfo() (ri RuntimeInfo, err error)], on the values of
    [runtime.Version()], [runtime.Compiler] and [runtime.GOARCH] and for
    an [int] of [intSize] bits. *)
Definition BuildRuntimeInfo (intSize : Z) (rv compiler goarch : string)
    : RuntimeInfo * option (GoError dyn) :=
  match FindStringSubmatch rv with
  | None =>
      (zero_RuntimeInfo,
       Some (ErrOpaque (fmt_Sprintf "failed to parse Go version: %q" [ArgString rv])))
  | Some m1 =>
      match Atoi intSize m1 with
      | None =>
          (zero_RuntimeInfo,
           Some (ErrOpaque (fmt_Sprintf "go minor version is not a number: %q (in %q)"
                              [ArgString m1; ArgString rv])))
      | Some minorVer => (mkRuntimeInfo minorVer compiler goarch, None)
      end
  end.

End Server.

(** The value of a string of digits, most significant first: the sum of
    each digit times its power of ten. *)
Fixpoint decimal_value (s : string) : Z :=
  match s with
  | EmptyString => 0
  | String c s' => digit_val c * 10 ^ Z.of_nat (String.length s') + decimal_value s'
  end.

Fixpoint all_digits (s : string) : bool :=
  match s with
  | EmptyString => true
  | String c s' => is_digit c && all_digits s'
  end.

(** Whether a string is empty or begins with a character that is no digit. *)
Definition no_digit_ahead (s : string) : bool :=
  match s with
  | EmptyString => true
  | String c _ => negb (is_digit c)
  end.

Fixpoint has_newline (s : string) : bool :=
  match s with
  | EmptyString => false
  | String c s' => Ascii.eqb c "010"%char || has_newline s'
  end.

(** ** What the listener leaves on the connection and starts *)

(** A chunk is the frame of the encoding of some response. *)
Definition is_frame {dyn : Type} `{!GoLib dyn} (p : list byte) : Prop :=
  ∃ (rsp : Response dyn) (enc : list byte), json_Marshal rsp = Ok enc ∧ p = frame enc.

(** A chunk is the frame of the encoding of a response with id [reqID]. *)
Definition is_frame_for {dyn : Type} `{!GoLib dyn} (reqID : Z) (p : list byte) : Prop :=
  ∃ (rsp : Response dyn) (enc : list byte),
    rsp_ID rsp = reqID ∧ json_Marshal rsp = Ok enc ∧ p = frame enc.

(** A read without error whose bytes are all white space. *)
Definition blank_read {dyn : Type} (rd : ReadEvent dyn) : Prop :=
  rd_err rd = None ∧ 0 < length (rd_data rd) ∧ TrimSpace (rd_data rd) = [].

(** What the loop returns for a read error, given what [connCtx.Err() != nil]
    evaluates to. *)
Definition read_error_result {dyn : Type} `{!GoLib dyn} (err : GoError dyn)
    (ctxErr : bool) : option (GoError dyn) :=
  if errors_Is_EOF err || errors_Is_ErrClosed err then None
  else if ctxErr then None
  else Some (fmt_Errorf_w "connection read failed: %w" err).

(** The goroutines [new] are started under [connCtx] between the states
    [st1] and [st2]: they are the last of [st2], the contexts made are
    theirs, one each and in order, every one is for a request with an id
    other than [0] and runs the handler of its method, and the handlers
    are as before. *)
Definition started {dyn H : Type} (connCtx : Context) (st1 st2 : State dyn H)
    (new : list (Task dyn H)) : Prop :=
  goroutines st2 = goroutines st1 ++ new ∧
  handlers (listener st2) = handlers (listener st1) ∧
  next_ctx st2 = next_ctx st1 + length new ∧
  task_cancelFn <$> new = seq (next_ctx st1) (length new) ∧
  Forall (λ t, task_ctx t = connCtx ∧
               req_ID (task_req t) ≠ 0%Z ∧
               handlers (listener st1) !! req_Method (task_req t) = Some (task_handler t) ∧
               task_reqCtx t = task_cancelFn t) new.

(** ** A small instance to run the definitions on *)

(** The examples below need concrete library functions. This module gives
    stand-ins that agree with Go's on the values the examples use: dynamic
    values are raw JSON texts and Go strings, strings are printable ASCII,
    and the decoder of envelopes knows the lines of the examples. *)
Module Sample.

Inductive dyn :=
| Raw (json : string)
| Str (s : string).

Definition dq : ascii := "034"%char.

(** JSON texts are written with ['] for the double quote. *)
Fixpoint js (s : string) : string :=
  match s with
  | EmptyString => EmptyString
  | String c s' => String (if Ascii.eqb c "'"%char then dq else c) (js s')
  end.

Definition bytes (s : string) : list byte := list_byte_of_string (js s).

Definition itoa (n : Z) : string :=
  DecimalString.NilZero.string_of_int (Z.to_int n).

Fixpoint escape (s : string) : string :=
  match s with
  | EmptyString => EmptyString
  | String c s' =>
      if Ascii.eqb c dq || Ascii.eqb c "092"%char
      then String "092"%char (String c (escape s'))
      else String c (escape s')
  end.

Definition quote (s : string) : string :=
  String dq (escape s) +:+ String dq EmptyString.

Definition err_text (e : GoError dyn) : string :=
  match e with
  | ErrEOF => "EOF"
  | ErrClosed => "use of closed network connection"
  | ErrOpaque msg => msg
  | ErrRpc e => Message e +:+ " (code: " +:+ itoa (Code e) +:+ ")"
  | ErrWrap msg _ => msg
  end.

Definition show (d : dyn) : string :=
  match d with
  | Raw json => json
  | Str s => s
  end.

Definition render (verb : ascii) (a : fmt_arg dyn) : string :=
  match a with
  | ArgString s => if Ascii.eqb verb "q"%char then quote s else s
  | ArgInt n => itoa n
  | ArgError e => err_text e
  | ArgAny r => show r
  end.

Fixpoint Sprintf (format : string) (args : list (fmt_arg dyn)) : string :=
  match format with
  | EmptyString => EmptyString
  | String c rest =>
      match rest with
      | String verb rest' =>
          if Ascii.eqb c "%"%char then
            match args with
            | a :: args' => render verb a +:+ Sprintf rest' args'
            | [] => "%!" +:+ String verb "(MISSING)" +:+ Sprintf rest' []
            end
          else String c (Sprintf rest args)
      | EmptyString => String c EmptyString
      end
  end.

Definition encode (d : dyn) : string :=
  match d with
  | Raw json => json
  | Str s => quote s
  end.

Definition encode_Error (e : Error dyn) : string :=
  js "{'code':" +:+ itoa (Code e) +:+ js ",'message':" +:+ quote (Message e)
  +:+ match Data e with
      | Some d => js ",'data':" +:+ encode d
      | None => EmptyString
      end
  +:+ "}".

Definition Marshal (rsp : Response dyn) : result dyn (list byte) :=
  Ok (list_byte_of_string
        (js "{'id':" +:+ itoa (rsp_ID rsp)
         +:+ match rsp_Result rsp with
             | Some d => js ",'result':" +:+ encode d
             | None => EmptyString
             end
         +:+ match rsp_Error rsp with
             | Some e => js ",'error':" +:+ encode_Error e
             | None => EmptyString
             end
         +:+ "}")).

Fixpoint bytes_eqb (a b : list byte) : bool :=
  match a, b with
  | [], [] => true
  | x :: a', y :: b' => Byte.eqb x y && bytes_eqb a' b'
  | _, _ => false
  end.

Definition known_requests : list (string * Request) :=
  [ ("{'id':1,'method':'ping','params':null}", mkRequest 1 "ping" (bytes "null"));
    ("{'id':2,'method':'boom','params':null}", mkRequest 2 "boom" (bytes "null"));
    ("{'id':3,'method':'nope','params':null}", mkRequest 3 "nope" (bytes "null"));
    ("{'id':0,'method':'$/cancelRequest','params':1}",
     mkRequest 0 "$/cancelRequest" (bytes "1"));
    ("{'id':0,'method':'$/cancelRequest','params':0}",
     mkRequest 0 "$/cancelRequest" (bytes "0"));
    ("{'id':0,'method':'hello'}", mkRequest 0 "hello" []) ].

Fixpoint lookup_request (data : list byte) (table : list (string * Request))
    : result dyn Request :=
  match table with
  | [] => Fail (ErrOpaque "invalid character in request")
  | (line, req) :: table' =>
      if bytes_eqb data (bytes line) then Ok req else lookup_request data table'
  end.

Definition Unmarshal_Request (data : list byte) : result dyn Request :=
  lookup_request data known_requests.

Fixpoint digits (acc : Z) (l : list byte) : option Z :=
  match l with
  | [] => Some acc
  | b :: l' =>
      let n := Z.of_N (Byte.to_N b) in
      if (48 <=? n)%Z && (n <=? 57)%Z then digits (10 * acc + (n - 48))%Z l'
      else None
  end.

Definition Unmarshal_int (data : list byte) : result dyn Z :=
  if bytes_eqb data (bytes "null") then Ok 0%Z
  else
    match data with
    | [] => Fail (ErrOpaque "unexpected end of JSON input")
    | b :: l' =>
        match (if Byte.eqb b x2d then Z.opp <$> digits 0 l' else digits 0 data) with
        | Some n => if (length data =? 1)%nat && Byte.eqb b x2d
                    then Fail (ErrOpaque "invalid number")
                    else Ok n
        | None => Fail (ErrOpaque "cannot unmarshal into Go value of type int")
        end
    end.

#[export] Instance lib : GoLib dyn := {
  fmt_Sprintf := Sprintf;
  json_Marshal := Marshal;
  json_Unmarshal_Request := Unmarshal_Request;
  json_Unmarshal_int := Unmarshal_int
}.

#[export] Instance int_json : JSONType dyn Z := {
  json_Unmarshal := Unmarshal_int
}.

#[export] Instance bool_boxed : Boxed dyn bool := {
  to_any p :=
    match p with
    | Some true => Raw "true"
    | Some false => Raw "false"
    | None => Raw "null"
    end
}.

(** Handlers: ["ping"] answers, ["boom"] panics. *)
Definition ping : RequestHandler dyn unit :=
  fun _ _ w => (Returned (Some (Raw (js "{'pong':true}"))) None, w).

Definition boom : RequestHandler dyn unit :=
  fun _ _ w => (Panicked (Str "boom"), w).

Definition table : gmap string (RequestHandler dyn unit) :=
  <["ping" := ping]> (<["boom" := boom]> ∅).

Definition open_conn : Conn dyn := mkConn [] None.

(** Before [ListenStream]: context [0] is the one of the application. *)
Definition idle : State dyn unit :=
  mkState (NewListener table) open_conn [] tt 1 [] [].

(** In the loop of [ListenStream 0]: the connection context is [1]. *)
Definition start : State dyn unit := (WithCancel 0 idle).2.

(** The goroutine that [handleRequest] starts for the request with id [2]
    and method ["boom"] under the connection context [1], from [start]. *)
Definition boom_task : Task dyn unit :=
  mkTask 1 (mkRequest 2 "boom" (bytes "null")) boom 2 2.

(** The lines of the examples. *)
Definition ping_line : list byte := bytes "{'id':1,'method':'ping','params':null}".
Definition boom_line : list byte := bytes "{'id':2,'method':'boom','params':null}".
Definition pong_text : list byte := bytes "{'id':1,'result':{'pong':true}}".
Definition pong2_text : list byte := bytes "{'id':2,'result':{'pong':true}}".

Definition cancel1_line : list byte :=
  bytes "{'id':0,'method':'$/cancelRequest','params':1}".
Definition cancel0_line : list byte :=
  bytes "{'id':0,'method':'$/cancelRequest','params':0}".
Definition hello_line : list byte := bytes "{'id':0,'method':'hello'}".

(** The state after the request line with id [1] has been handled under
    the connection context [1]: its goroutine has not run yet. *)
Definition pinged : State dyn unit := (handleRequest 1 ping_line start).1.

(** The state after a second request line with id [1] has been handled:
    two requests in flight share the id. *)
Definition pinged_twice : State dyn unit := (handleRequest 1 ping_line pinged).1.

(** A business function for the typed adapter: is the number positive? *)
Definition positive_fn : Context → Z → unit → FuncOutcome dyn bool * unit :=
  fun _ n w => (FuncReturned (Some (0 <? n)%Z) None, w).

End Sample.

(** ** More lines and a driver service to run the definitions on *)

Module Sample2.

Import Sample.

Definition more_requests : list (string * Request) :=
  [ ("{'id':0,'method':'$/cancelRequest','params':'x'}",
     mkRequest 0 "$/cancelRequest" (bytes "'x'"));
    ("{'id':0,'method':'$/cancelRequest','params':9}",
     mkRequest 0 "$/cancelRequest" (bytes "9"));
    ("{'id':5,'method':'goPackageDriver/query','params':null}",
     mkRequest 5 "goPackageDriver/query" (bytes "null"));
    ("{'id':6,'method':'goPackageDriver/query','params':7}",
     mkRequest 6 "goPackageDriver/query" (bytes "7"));
    ("{'id':7,'method':'ping','params':null}", mkRequest 7 "ping" (bytes "null")) ].

(** The decoder of [Sample], with the lines above added. *)
Definition Unmarshal_Request2 (data : list byte) : result dyn Request :=
  match Unmarshal_Request data with
  | Ok req => Ok req
  | Fail _ => lookup_request data more_requests
  end.

Definition lib2 : GoLib dyn := {|
  fmt_Sprintf := Sprintf;
  json_Marshal := Marshal;
  json_Unmarshal_Request := Unmarshal_Request2;
  json_Unmarshal_int := Unmarshal_int
|}.

Definition cancel_x_line : list byte :=
  bytes "{'id':0,'method':'$/cancelRequest','params':'x'}".
Definition cancel9_line : list byte :=
  bytes "{'id':0,'method':'$/cancelRequest','params':9}".
Definition query_line : list byte :=
  bytes "{'id':5,'method':'goPackageDriver/query','params':null}".
Definition bad_query_line : list byte :=
  bytes "{'id':6,'method':'goPackageDriver/query','params':7}".
Definition ping7_line : list byte := bytes "{'id':7,'method':'ping','params':null}".
Definition nope_line : list byte := bytes "{'id':3,'method':'nope','params':null}".

(** A connection that has failed. *)
Definition closed_conn : Conn dyn := mkConn [] (Some ErrClosed).

(** Decoding into a [*DriverRequestEnvelope]: [null] gives the nil pointer. *)
Definition envelope_json : JSONType dyn (option (DriverRequestEnvelope unit)) := {|
  json_Unmarshal data :=
    if bytes_eqb data (bytes "null") then Ok None
    else Fail (ErrOpaque "cannot unmarshal into Go value of type server.DriverRequestEnvelope")
|}.

Definition encode_bool (b : bool) : string := if b then "true" else "false".

Fixpoint join (sep : string) (l : list string) : string :=
  match l with
  | [] => EmptyString
  | [x] => x
  | x :: l' => x +:+ sep +:+ join sep l'
  end.

(** The field [Roots] has the tag [omitempty], the field [Packages] has not;
    a package of the stand-in is a nil pointer. *)
Definition encode_Roots (roots : list string) : string :=
  match roots with
  | [] => EmptyString
  | _ => js ",'Roots':[" +:+ join "," (quote <$> roots) +:+ "]"
  end.

Definition encode_Packages (ps : list unit) : string :=
  js ",'Packages':[" +:+ join "," ((λ _, "null"%string) <$> ps) +:+ "]".

Definition response_boxed : Boxed dyn (DriverResponse unit) := {|
  to_any p :=
    match p with
    | Some r =>
        Raw (js "{'NotHandled':" +:+ encode_bool (NotHandled r)
             +:+ js ",'Compiler':" +:+ quote (dr_Compiler r)
             +:+ js ",'Arch':" +:+ quote (dr_Arch r)
             +:+ encode_Roots (Roots r)
             +:+ encode_Packages (Packages r)
             +:+ js ",'GoVersion':" +:+ itoa (GoVersion r) +:+ "}")
    | None => Raw "null"
    end
|}.

Definition wasm_service : Service := mkService (mkRuntimeInfo 24 "gc" "wasm").

(** The listener of [wasm_service], in the loop of [ListenStream 0]. *)
Definition serving : State dyn unit :=
  (WithCancel 0
     (mkState (Service_Listener (GoLib0:=lib2) (JSONType0:=envelope_json)
                 (Boxed0:=response_boxed) wasm_service)
        open_conn [] tt 1 [] [])).2.

End Sample2.

(** * Properties *)

(** ** The error model *)

Section TypesFacts.

Context {dyn : Type} `{!GoLib dyn}.

Lemma errors_As_Unwrap (err inner : GoError dyn) :
  Unwrap err = Some inner → errors_As err = errors_As inner.
Proof. destruct err; simpl; congruence. Qed.

Lemma WrapError_found (err : GoError dyn) (e : Error dyn) :
  errors_As err = Some e → WrapError err = e.
Proof. unfold WrapError. by intros ->. Qed.

Lemma WrapError_not_found (err : GoError dyn) :
  errors_As err = None → WrapError err = NewError ErrorCodeInternalError err.
Proof. unfold WrapError. by intros ->. Qed.

(** C8, as amended. [WrapError] returns a failure that is a protocol
    [Error] unchanged; for a failure that wraps another one in whose chain
    there is a protocol [Error] it returns what it returns for the wrapped
    failure, so the first protocol [Error] of the chain and not the failure;
    for any other failure it returns a new [Error] with the code [-32603]
    and the message of the failure. *)
Theorem WrapError_classifies :
  (∀ e : Error dyn, WrapError (ErrRpc e) = e) ∧
  (∀ (msg : string) (inner : GoError dyn),
     errors_As inner ≠ None →
     WrapError (ErrWrap msg inner) = WrapError inner) ∧
  (∀ err : GoError dyn,
     errors_As err = None →
     WrapError err = mkError (-32603)%Z (error_string err) None).
Proof.
  split; [done|]. split.
  - intros msg inner Hin. unfold WrapError. simpl.
    destruct (errors_As inner); [done|congruence].
  - intros err Hnone. by rewrite WrapError_not_found.
Qed.

End TypesFacts.

(** ** The cancellation registry *)

Section RegistryFacts.

Implicit Types (rc : requestCanceler) (f g : CancelFunc) (reqID : Z).

Lemma times_app f (l1 l2 : list CancelFunc) :
  times f (l1 ++ l2) = times f l1 + times f l2.
Proof. unfold times. by rewrite filter_app, length_app. Qed.

Lemma times_nil f : times f [] = 0.
Proof. done. Qed.

Lemma times_cons f g (l : list CancelFunc) :
  times f (g :: l) = (if decide (g = f) then 1 else 0) + times f l.
Proof. unfold times. rewrite filter_cons. by destruct (decide (g = f)). Qed.

Lemma times_perm f (l1 l2 : list CancelFunc) :
  l1 ≡ₚ l2 → times f l1 = times f l2.
Proof. unfold times. by intros ->. Qed.

Lemma times_not_elem f (l : list CancelFunc) : f ∉ l → times f l = 0.
Proof.
  induction l as [|g l IH]; intros Hf; [done|].
  apply not_elem_of_cons in Hf as [Hne Hf].
  rewrite times_cons, (IH Hf). by destruct (decide (g = f)).
Qed.

Lemma times_NoDup f (l : list CancelFunc) : NoDup l → times f l ≤ 1.
Proof.
  induction 1 as [|g l Hg _ IH]; [unfold times; simpl; lia|].
  rewrite times_cons. destruct (decide (g = f)) as [->|]; [|lia].
  assert (times f l = 0); [|lia].
  apply times_not_elem. done.
Qed.

Lemma values_empty : values ∅ = [].
Proof. unfold values. by rewrite map_to_list_empty. Qed.

Lemma values_lookup (mp : gmap Z CancelFunc) reqID f :
  mp !! reqID = Some f → values mp ≡ₚ f :: values (delete reqID mp).
Proof.
  intros Hl. unfold values.
  by rewrite <- (map_to_list_delete mp reqID f Hl).
Qed.

Lemma values_insert_fresh (mp : gmap Z CancelFunc) reqID f :
  mp !! reqID = None → values (<[reqID := f]> mp) ≡ₚ f :: values mp.
Proof. intros Hl. unfold values. by rewrite map_to_list_insert. Qed.

Lemma values_insert (mp : gmap Z CancelFunc) reqID f :
  values (<[reqID := f]> mp) ≡ₚ f :: values (delete reqID mp).
Proof.
  rewrite <- insert_delete_eq.
  apply values_insert_fresh, lookup_delete_eq.
Qed.

Lemma times_values_delete (mp : gmap Z CancelFunc) reqID f :
  times f (values (delete reqID mp)) ≤ times f (values mp).
Proof.
  destruct (mp !! reqID) as [g|] eqn:Hl.
  - rewrite (times_perm f _ _ (values_lookup mp reqID g Hl)), times_cons. lia.
  - by rewrite delete_id.
Qed.

Lemma cancelRequest_absent reqID rc :
  m rc !! reqID = None → cancelRequest reqID rc = rc.
Proof. unfold cancelRequest, LoadAndDelete. by intros ->. Qed.

Lemma cancelRequest_present reqID rc f :
  m rc !! reqID = Some f →
  cancelRequest reqID rc = mkCanceler (delete reqID (m rc)) (fired rc ++ [f]).
Proof. unfold cancelRequest, LoadAndDelete. by intros ->. Qed.

Lemma finishRequest_m reqID rc : m (finishRequest reqID rc).1 = delete reqID (m rc).
Proof. done. Qed.

Lemma finishRequest_fired reqID rc : fired (finishRequest reqID rc).1 = fired rc.
Proof. done. Qed.

Lemma held_step f rc (c : registry_call) :
  held f (registry_step rc c) ≤ held f rc + times f (registered [c]).
Proof.
  unfold held. destruct c as [reqID g|reqID|reqID|]; simpl.
  - rewrite (times_perm f _ _ (values_insert (m rc) reqID g)), !times_cons.
    pose proof (times_values_delete (m rc) reqID f).
    rewrite times_nil. lia.
  - destruct (m rc !! reqID) as [g|] eqn:Hl.
    + rewrite (cancelRequest_present _ _ _ Hl). simpl.
      rewrite times_app, (times_perm f _ _ (values_lookup (m rc) reqID g Hl)).
      rewrite !times_cons, !times_nil. lia.
    + rewrite (cancelRequest_absent _ _ Hl), times_nil. lia.
  - pose proof (times_values_delete (m rc) reqID f).
    rewrite times_nil. lia.
  - rewrite times_app, values_empty, !times_nil. lia.
Qed.

Lemma registered_app (calls1 calls2 : list registry_call) :
  registered (calls1 ++ calls2) = registered calls1 ++ registered calls2.
Proof.
  induction calls1 as [|[] calls1 IH]; simpl; by rewrite ?IH.
Qed.

Lemma held_run f (calls : list registry_call) rc :
  held f (registry_run calls rc) ≤ held f rc + times f (registered calls).
Proof.
  revert rc. induction calls as [|c calls IH]; intros rc.
  - simpl. rewrite times_nil. lia.
  - change (c :: calls) with ([c] ++ calls).
    rewrite registered_app, times_app.
    change (registry_run ([c] ++ calls) rc)
      with (registry_run calls (registry_step rc c)).
    pose proof (IH (registry_step rc c)). pose proof (held_step f rc c). lia.
Qed.

Lemma fired_step_mono f rc (c : registry_call) :
  times f (fired rc) ≤ times f (fired (registry_step rc c)).
Proof.
  destruct c as [reqID g|reqID|reqID|]; simpl; [done| |done|].
  - destruct (m rc !! reqID) as [g|] eqn:Hl.
    + rewrite (cancelRequest_present _ _ _ Hl). simpl. rewrite times_app. lia.
    + by rewrite (cancelRequest_absent _ _ Hl).
  - rewrite times_app. lia.
Qed.

Lemma fired_run_mono f (calls : list registry_call) rc :
  times f (fired rc) ≤ times f (fired (registry_run calls rc)).
Proof.
  revert rc. induction calls as [|c calls IH]; intros rc; [done|].
  change (registry_run (c :: calls) rc)
    with (registry_run calls (registry_step rc c)).
  pose proof (IH (registry_step rc c)). pose proof (fired_step_mono f rc c). lia.
Qed.

(** C3. The registry calls a cancel function at most once. [cancelRequest]
    on an id without entry changes nothing; after [addRequest] and
    [finishRequest] of an id, [cancelRequest] of that id changes nothing and
    the function has not been called; and over every sequence of calls on a
    new registry in which no cancel function is registered twice, each
    function is called at most once. *)
Theorem registry_cancels_at_most_once :
  (∀ rc reqID, m rc !! reqID = None → cancelRequest reqID rc = rc) ∧
  (∀ rc reqID f,
     let rc' := (finishRequest reqID (addRequest reqID f rc)).1 in
     cancelRequest reqID rc' = rc' ∧ fired rc' = fired rc) ∧
  (∀ (calls : list registry_call) f,
     NoDup (registered calls) →
     times f (fired (registry_run calls newCanceler)) ≤ 1).
Proof.
  split; [intros rc reqID; apply cancelRequest_absent|]. split.
  - intros rc reqID f rc'. split; [|done].
    apply cancelRequest_absent. subst rc'.
    rewrite finishRequest_m. apply lookup_delete_eq.
  - intros calls f Hnd.
    pose proof (held_run f calls newCanceler) as Hh.
    pose proof (times_NoDup f _ Hnd).
    unfold held in Hh. simpl in Hh.
    rewrite values_empty, !times_nil in Hh. lia.
Qed.

(** C10. [addRequest] on an id that has an entry replaces the entry and
    calls nothing; if the function replaced was held under that id only, no
    later sequence of calls that does not register it again makes the
    registry call it. After two [addRequest] of one id, one [finishRequest]
    reports an entry and leaves none: a second [finishRequest] reports no
    entry and [cancelRequest] changes nothing. *)
Theorem addRequest_replaces_silently :
  (∀ rc reqID f1 f2 (calls : list registry_call),
     m rc !! reqID = Some f1 →
     times f1 (values (m rc)) = 1 →
     f1 ≠ f2 →
     f1 ∉ registered calls →
     let rc' := addRequest reqID f2 rc in
     m rc' !! reqID = Some f2 ∧
     fired rc' = fired rc ∧
     times f1 (fired (registry_run calls rc')) = times f1 (fired rc)) ∧
  (∀ rc reqID f1 f2,
     let rc2 := addRequest reqID f2 (addRequest reqID f1 rc) in
     let rc3 := (finishRequest reqID rc2).1 in
     m rc2 !! reqID = Some f2 ∧
     (finishRequest reqID rc2).2 = true ∧
     m rc3 !! reqID = None ∧
     fired rc3 = fired rc ∧
     (finishRequest reqID rc3).2 = false ∧
     cancelRequest reqID rc3 = rc3).
Proof.
  split.
  - intros rc reqID f1 f2 calls Hl Hone Hne Hreg rc'.
    split; [apply lookup_insert_eq|]. split; [done|].
    pose proof (held_run f1 calls rc') as Hh.
    pose proof (fired_run_mono f1 calls rc') as Hm.
    rewrite (times_not_elem _ _ Hreg) in Hh.
    unfold held in Hh. subst rc'. simpl in *.
    rewrite (times_perm f1 _ _ (values_insert (m rc) reqID f2)) in Hh.
    rewrite (times_perm f1 _ _ (values_lookup (m rc) reqID f1 Hl)) in Hone.
    rewrite times_cons in Hh, Hone.
    destruct (decide (f2 = f1)); [congruence|].
    destruct (decide (f1 = f1)); [|congruence]. lia.
  - intros rc reqID f1 f2 rc2 rc3. subst rc2 rc3.
    assert (Hl : m (addRequest reqID f2 (addRequest reqID f1 rc)) !! reqID = Some f2)
      by apply lookup_insert_eq.
    split; [done|]. split.
    { unfold finishRequest, LoadAndDelete. rewrite Hl. done. }
    assert (Hd : m (finishRequest reqID (addRequest reqID f2 (addRequest reqID f1 rc))).1
                 !! reqID = None)
      by (rewrite finishRequest_m; apply lookup_delete_eq).
    split; [done|]. split; [done|]. split.
    { unfold finishRequest at 1, LoadAndDelete. rewrite Hd. done. }
    by apply cancelRequest_absent.
Qed.

End RegistryFacts.

(** ** The typed handler adapter *)

Section TypedHandlerFacts.

Context {dyn H TRequest TResponse : Type}.
Context `{!GoLib dyn} `{!JSONType dyn TRequest} `{!Boxed dyn TResponse}.

Implicit Types (fn : Context → TRequest → H → FuncOutcome dyn TResponse * H).

Lemma HandleRequest_decoded fn ctx params (req : TRequest) (w : H) :
  json_Unmarshal params = Ok req →
  NewHandler fn ctx params w = (return_func (fn ctx req w).1, (fn ctx req w).2).
Proof.
  intros Hdec. unfold NewHandler, HandleRequest. rewrite Hdec. simpl.
  by destruct (fn ctx req w).
Qed.

Lemma HandleRequest_undecoded fn ctx params (err : GoError dyn) (w : H) :
  json_Unmarshal (T:=TRequest) params = Fail err →
  NewHandler fn ctx params w
  = (Returned None (Some (ErrRpc (NewError ErrorCodeParseError err))), w).
Proof. intros Hdec. unfold NewHandler, HandleRequest. by rewrite Hdec. Qed.

(** C4. On every parameter bytes the adapter either decodes them and calls
    the business function once, with the context it was given and the
    decoded value, and returns what the function returned: the pointer it
    returned as an [any], with the error it returned, or the panic it ended
    in, and the world as the function left it; or, when decoding fails, it
    returns a [ParseError] with the message of the decoding failure and does
    not call the business function. The calls are those [traced] records. *)
Theorem typed_handler_decodes_then_calls_once fn ctx params (w : H)
    (calls : list (Context * TRequest)) :
  match json_Unmarshal params with
  | Ok req =>
      match fn ctx req w with
      | (FuncReturned out err, w') =>
          NewHandler (traced fn) ctx params (w, calls)
          = (Returned (Some (to_any out)) err, (w', calls ++ [(ctx, req)]))
      | (FuncPanicked r, w') =>
          NewHandler (traced fn) ctx params (w, calls)
          = (Panicked r, (w', calls ++ [(ctx, req)]))
      end
  | Fail err =>
      NewHandler (traced fn) ctx params (w, calls)
      = (Returned None (Some (ErrRpc (mkError (-32700)%Z (error_string err) None))),
         (w, calls))
  end.
Proof.
  unfold NewHandler, HandleRequest.
  destruct (json_Unmarshal params) as [req|err]; [|done].
  unfold traced. simpl. by destruct (fn ctx req w) as [[out err|r] w'].
Qed.

End TypedHandlerFacts.

(** ** The listener *)

Section ListenerFacts.

Context {dyn H : Type} `{!GoLib dyn}.

Implicit Types (st : State dyn H) (dst : Conn dyn) (rsp : Response dyn).
Implicit Types (t : Task dyn H) (err : GoError dyn).

Lemma serveResponse_written dst rsp (enc : list byte) :
  json_Marshal rsp = Ok enc →
  broken dst = None →
  serveResponse dst rsp = (mkConn (sent dst ++ [frame enc]) None, None).
Proof.
  intros Henc Hopen. unfold serveResponse, Encoder_Encode, conn_Write.
  by rewrite Henc, Hopen.
Qed.

Lemma serveResponse_unencodable dst rsp err :
  json_Marshal rsp = Fail err →
  serveResponse dst rsp
  = (dst, Some (fmt_Errorf_w "failed to serialize response: %w" err)).
Proof. intros Henc. unfold serveResponse, Encoder_Encode. by rewrite Henc. Qed.

Lemma serveResponse_broken dst rsp (enc : list byte) err :
  json_Marshal rsp = Ok enc →
  broken dst = Some err →
  serveResponse dst rsp = (dst, Some err).
Proof.
  intros Henc Hbr. unfold serveResponse, Encoder_Encode, conn_Write.
  by rewrite Henc, Hbr.
Qed.

(** A call of [serveResponse] makes at most one [Write], of a whole frame. *)
Lemma serveResponse_one_Write dst rsp :
  sent (serveResponse dst rsp).1 = sent dst ∨
  ∃ enc, json_Marshal rsp = Ok enc ∧
         sent (serveResponse dst rsp).1 = sent dst ++ [frame enc].
Proof.
  destruct (json_Marshal rsp) as [enc|err] eqn:Henc.
  - destruct (broken dst) as [e|] eqn:Hbr.
    + left. by rewrite (serveResponse_broken _ _ _ _ Henc Hbr).
    + right. exists enc. by rewrite (serveResponse_written _ _ _ Henc Hbr).
  - left. by rewrite (serveResponse_unencodable _ _ _ Henc).
Qed.

Lemma serve_conn rsp st : conn (serve rsp st).1 = (serveResponse (conn st) rsp).1.
Proof. unfold serve. by destruct (serveResponse (conn st) rsp). Qed.

Lemma serve_listener rsp st : listener (serve rsp st).1 = listener st.
Proof. unfold serve. by destruct (serveResponse (conn st) rsp). Qed.

Lemma serve_goroutines rsp st : goroutines (serve rsp st).1 = goroutines st.
Proof. unfold serve. by destruct (serveResponse (conn st) rsp). Qed.

Lemma readLoop_line (connCtx : Context) (raw : list byte) (flag : bool)
    (rest : list (ReadEvent dyn)) st :
  0 < length raw →
  TrimSpace raw ≠ [] →
  readLoop connCtx (mkRead raw None flag :: rest) st
  = readLoop connCtx rest (handleRequest connCtx (TrimSpace raw) st).1.
Proof.
  intros Hlen Hne. simpl.
  destruct (0 <? length raw)%nat eqn:H0; [|apply Nat.ltb_ge in H0; lia].
  destruct (length (TrimSpace raw) =? 0)%nat eqn:H1; [|done].
  apply Nat.eqb_eq, length_zero_iff_nil in H1. done.
Qed.

(** C5. A line that does not decode as an envelope is answered by the
    [ParseError] response with id [0]: [handleRequest] does what serving
    that response does, which on an open connection is one [Write] of the
    frame of its encoding; and after a read without error that gave such a
    line the loop goes on with the reads that follow. *)
Theorem malformed_line_answered_and_loop_goes_on
    (connCtx : Context) (data : list byte) err st :
  json_Unmarshal_Request data = Fail err →
  let rsp := mkResponse 0 None (Some (mkError (-32700)%Z (error_string err) None)) in
  handleRequest connCtx data st = serve rsp st ∧
  (∀ enc, json_Marshal rsp = Ok enc → broken (conn st) = None →
          sent (conn (handleRequest connCtx data st).1) = sent (conn st) ++ [frame enc]) ∧
  (∀ (raw : list byte) (flag : bool) (rest : list (ReadEvent dyn)),
     0 < length raw → TrimSpace raw = data → data ≠ [] →
     readLoop connCtx (mkRead raw None flag :: rest) st
     = readLoop connCtx rest (serve rsp st).1).
Proof.
  intros Hdec rsp.
  assert (Hreq : handleRequest connCtx data st = serve rsp st).
  { unfold handleRequest. by rewrite Hdec. }
  split; [done|]. split.
  - intros enc Henc Hopen.
    by rewrite Hreq, serve_conn, (serveResponse_written _ _ _ Henc Hopen).
  - intros raw flag rest Hlen Htrim Hne. subst data.
    by rewrite (readLoop_line _ _ _ _ _ Hlen Hne), Hreq.
Qed.

Lemma handleNotification_other (req : Request) st :
  req_Method req ≠ NotificationCancelRequest →
  handleNotification req st
  = (st, Some (ErrRpc (Errorf ErrorCodeMethodNotFound "unsupported notification %q"
                         [ArgString (req_Method req)]))).
Proof.
  intros Hm. unfold handleNotification.
  apply String.eqb_neq in Hm. by rewrite Hm.
Qed.

Lemma handleNotification_cancel (req : Request) st :
  req_Method req = NotificationCancelRequest →
  handleNotification req st
  = match json_Unmarshal_int (req_Params req) with
    | Fail err =>
        (st, Some (ErrRpc (Errorf ErrorCodeInvalidParams "cannot read params: %s"
                             [ArgError err])))
    | Ok reqID =>
        if (reqID =? 0)%Z
        then (st, Some (ErrRpc (Errorf ErrorCodeInvalidParams "missing request ID" [])))
        else (with_canceler (cancelRequest reqID (canceler (listener st))) st, None)
    end.
Proof.
  intros Hm. unfold handleNotification.
  apply String.eqb_eq in Hm. by rewrite Hm.
Qed.

Lemma served_on_open rsp st (enc : list byte) :
  json_Marshal rsp = Ok enc →
  broken (conn st) = None →
  sent (conn (serve rsp st).1) = sent (conn st) ++ [frame enc].
Proof.
  intros Henc Hopen. by rewrite serve_conn, (serveResponse_written _ _ _ Henc Hopen).
Qed.

(** C7, as amended. For a decoded envelope with id [0] there are four
    cases. If the method is not ["$/cancelRequest"], the notification fails
    with the code of [MethodNotFound]. If it is and the parameters decode to
    the integer [0], it fails with the code of [InvalidParams]. If it is and
    the parameters do not decode as an integer, it fails with the code of
    [InvalidParams] too. In these three cases the error is served as a
    response with id [0], which on an open connection is one [Write] of the
    frame of its encoding, and the listener with its registry is as before.
    If the method is ["$/cancelRequest"] and the parameters decode to an
    integer [n] other than [0], nothing is written and no error is
    returned; the entry of [n] is removed from the registry and its cancel
    function is called, once, if there was one, and nothing is called if
    there was none. *)
Theorem notification_dispatch (connCtx : Context) (data : list byte) (req : Request) st :
  json_Unmarshal_Request data = Ok req →
  req_ID req = 0%Z →
  let st' := (handleRequest connCtx data st).1 in
  let answered (e : Error dyn) :=
    (handleNotification req st).2 = Some (ErrRpc e) ∧
    handleRequest connCtx data st = serve (mkResponse 0 None (Some e)) st ∧
    listener st' = listener st ∧
    (∀ enc, json_Marshal (mkResponse 0 None (Some e)) = Ok enc →
            broken (conn st) = None →
            sent (conn st') = sent (conn st) ++ [frame enc]) in
  (req_Method req ≠ "$/cancelRequest" →
     answered (mkError (-32601)%Z
                 (fmt_Sprintf "unsupported notification %q" [ArgString (req_Method req)])
                 None)) ∧
  (req_Method req = "$/cancelRequest" →
   json_Unmarshal_int (req_Params req) = Ok 0%Z →
     answered (mkError (-32602)%Z "missing request ID" None)) ∧
  (req_Method req = "$/cancelRequest" →
   ∀ err, json_Unmarshal_int (req_Params req) = Fail err →
     answered (mkError (-32602)%Z
                 (fmt_Sprintf "cannot read params: %s" [ArgError err]) None)) ∧
  (req_Method req = "$/cancelRequest" →
   ∀ n : Z, json_Unmarshal_int (req_Params req) = Ok n → n ≠ 0%Z →
     (handleRequest connCtx data st).2 = None ∧
     conn st' = conn st ∧
     goroutines st' = goroutines st ∧
     m (canceler (listener st')) = delete n (m (canceler (listener st))) ∧
     fired (canceler (listener st'))
     = fired (canceler (listener st))
       ++ match m (canceler (listener st)) !! n with
          | Some f => [f]
          | None => []
          end).
Proof.
  intros Hdec Hid st' answered.
  assert (Hreq : handleRequest connCtx data st
                 = match handleNotification req st with
                   | (st1, Some err) => serve (AsResponse (WrapError err) 0) st1
                   | (st1, None) => (st1, None)
                   end).
  { unfold handleRequest. rewrite Hdec, Hid. done. }
  assert (Hans : ∀ e, handleNotification req st = (st, Some (ErrRpc e)) → answered e).
  { intros e Hn. subst answered st'. simpl.
    assert (Hserve : handleRequest connCtx data st = serve (mkResponse 0 None (Some e)) st)
      by (by rewrite Hreq, Hn).
    split; [by rewrite Hn|]. split; [exact Hserve|].
    rewrite Hserve. split; [apply serve_listener|].
    intros enc Henc Hopen. by apply served_on_open. }
  split; [|split; [|split]].
  - intros Hm. apply Hans. by rewrite (handleNotification_other _ _ Hm).
  - intros Hm Hzero. apply Hans.
    by rewrite (handleNotification_cancel _ _ Hm), Hzero.
  - intros Hm err Hfail. apply Hans.
    by rewrite (handleNotification_cancel _ _ Hm), Hfail.
  - intros Hm n Hn Hnz.
    assert (Hnot : handleNotification req st
                   = (with_canceler (cancelRequest n (canceler (listener st))) st, None)).
    { rewrite (handleNotification_cancel _ _ Hm), Hn.
      apply Z.eqb_neq in Hnz. by rewrite Hnz. }
    subst st'. rewrite Hreq, Hnot. simpl.
    split; [done|]. split; [done|]. split; [done|].
    destruct (m (canceler (listener st)) !! n) as [f|] eqn:Hl.
    + by rewrite (cancelRequest_present _ _ _ Hl).
    + rewrite (cancelRequest_absent _ _ Hl), app_nil_r. split; [|done].
      symmetry. by apply delete_id.
Qed.

(** A handler that returns: with the connection context canceled at the
    test, the goroutine serves nothing. *)
Lemma runTask_returned_canceled t st (out : option dyn) (oerr : option (GoError dyn)) (w : H) :
  task_handler t (task_reqCtx t) (req_Params (task_req t)) (world st)
  = (Returned out oerr, w) →
  runTask t true st = task_deferred t (with_world w st) ∧
  conn (runTask t true st) = conn st.
Proof. intros Hrun. unfold runTask. rewrite Hrun. done. Qed.

(** A handler that returns, with the connection context live at the test:
    the response is served. *)
Lemma runTask_returned_live t st (out : option dyn) (oerr : option (GoError dyn)) (w : H) :
  task_handler t (task_reqCtx t) (req_Params (task_req t)) (world st)
  = (Returned out oerr, w) →
  conn (runTask t false st)
  = (serveResponse (conn st)
       (mkResponse (req_ID (task_req t)) out (WrapError <$> oerr))).1.
Proof.
  intros Hrun. unfold runTask. rewrite Hrun. simpl.
  by rewrite serve_conn.
Qed.

(** A handler that panics: the [InternalError] response is served, whatever
    the state of the connection context. *)
Lemma runTask_panicked t st (r : dyn) (w : H) (ctxErr : bool) :
  task_handler t (task_reqCtx t) (req_Params (task_req t)) (world st)
  = (Panicked r, w) →
  conn (runTask t ctxErr st)
  = (serveResponse (conn st)
       (mkResponse (req_ID (task_req t)) None
          (Some (mkError (-32603)%Z (fmt_Sprintf "%s" [ArgAny r]) None)))).1.
Proof.
  intros Hrun. unfold runTask. rewrite Hrun.
  by rewrite serve_conn.
Qed.

(** The goroutine ends with the entry of its id removed from the registry. *)
Lemma runTask_finishes t st (ctxErr : bool) :
  m (canceler (listener (runTask t ctxErr st))) !! req_ID (task_req t) = None.
Proof.
  unfold runTask.
  destruct (task_handler t _ _ _) as [[out oerr|r] w].
  - destruct ctxErr; simpl; apply lookup_delete_eq.
  - rewrite serve_listener. simpl. apply lookup_delete_eq.
Qed.

(** A read that returns an error with no bytes, or with a line that is not
    blank, ends the loop: without failure for [io.EOF] and [net.ErrClosed]
    and when the connection context is canceled, with the wrapped error
    otherwise. *)
Lemma readLoop_read_error (connCtx : Context) (raw : list byte) err (flag : bool)
    (rest : list (ReadEvent dyn)) st :
  raw = [] ∨ TrimSpace raw ≠ [] →
  (readLoop connCtx (mkRead raw (Some err) flag :: rest) st).2
  = Some (if errors_Is_EOF err || errors_Is_ErrClosed err then None
          else if flag then None
          else Some (fmt_Errorf_w "connection read failed: %w" err)).
Proof.
  intros Hraw. simpl.
  destruct (0 <? length raw)%nat eqn:H0.
  - destruct Hraw as [->|Hne]; [done|].
    destruct (length (TrimSpace raw) =? 0)%nat eqn:H1.
    { apply Nat.eqb_eq, length_zero_iff_nil in H1. done. }
    by destruct (errors_Is_EOF err || errors_Is_ErrClosed err), flag.
  - by destruct (errors_Is_EOF err || errors_Is_ErrClosed err), flag.
Qed.

(** A read that returns an error with bytes that are all white space does
    not end the loop: the error is dropped, and the loop reads again. *)
Lemma readLoop_blank_read_error (connCtx : Context) (raw : list byte) err (flag : bool)
    (rest : list (ReadEvent dyn)) st :
  0 < length raw →
  TrimSpace raw = [] →
  readLoop connCtx (mkRead raw (Some err) flag :: rest) st = readLoop connCtx rest st.
Proof.
  intros Hlen Hblank. simpl.
  destruct (0 <? length raw)%nat eqn:H0; [|apply Nat.ltb_ge in H0; lia].
  by rewrite Hblank.
Qed.

End ListenerFacts.

(** ** Goroutines that write at the same time *)

Section WireFacts.

Context {dyn : Type} `{!GoLib dyn}.

Lemma transfer_all_present (pending : list (list byte)) (wire p : list byte) (g : nat) :
  pending !! g = Some p →
  transfer_all (pending, wire) g = (<[g := []]> pending, wire ++ p).
Proof.
  intros Hg. unfold transfer_all, transfer, pending_of. simpl. rewrite Hg. simpl.
  by rewrite drop_all, firstn_all.
Qed.

Lemma transfer_all_absent (pending : list (list byte)) (wire : list byte) (g : nat) :
  pending !! g = None →
  transfer_all (pending, wire) g = (pending, wire).
Proof. intros Hg. unfold transfer_all, transfer, pending_of. simpl. by rewrite Hg. Qed.

Lemma pending_insert_fresh (pending : list (list byte)) (g : nat) (p : list byte)
    (order : list nat) :
  g ∉ order →
  map (pending_of (<[g := p]> pending)) order = map (pending_of pending) order.
Proof.
  induction order as [|g' order IH]; intros Hg; [done|].
  apply not_elem_of_cons in Hg as [Hne Hg]. simpl.
  rewrite (IH Hg). unfold pending_of at 1 3.
  by rewrite list_lookup_insert_ne.
Qed.

Lemma run_atomic_wire (order : list nat) (pending : list (list byte)) (wire : list byte) :
  NoDup order →
  (run_atomic order (pending, wire)).2
  = wire ++ concat (map (pending_of pending) order).
Proof.
  intros Hnd. revert pending wire.
  induction Hnd as [|g order Hg Hnd IH]; intros pending wire.
  - simpl. by rewrite app_nil_r.
  - change (run_atomic (g :: order) (pending, wire))
      with (run_atomic order (transfer_all (pending, wire) g)).
    simpl. unfold pending_of at 1.
    destruct (pending !! g) as [p|] eqn:Hp; simpl.
    + rewrite (transfer_all_present _ _ _ _ Hp), IH.
      rewrite (pending_insert_fresh _ _ _ _ Hg).
      by rewrite app_assoc.
    + by rewrite (transfer_all_absent _ _ _ Hp), IH.
Qed.

(** C9, as amended. The listener has no exclusive section around its
    writes. A call of [serveResponse] hands the stream the whole frame of
    its response in at most one [Write]; and when the pending [Write] calls
    of the goroutines go through one at a time, each in one piece, the wire
    is the bytes of the frames one after the other, in the order in which
    the goroutines were picked. *)
Theorem frames_whole_when_Write_is_atomic :
  (∀ (dst : Conn dyn) (rsp : Response dyn),
     sent (serveResponse dst rsp).1 = sent dst ∨
     ∃ enc, json_Marshal rsp = Ok enc ∧
            sent (serveResponse dst rsp).1 = sent dst ++ [frame enc]) ∧
  (∀ (pending : list (list byte)) (order : list nat) (wire : list byte),
     NoDup order →
     (run_atomic order (pending, wire)).2
     = wire ++ concat (map (pending_of pending) order)).
Proof.
  split.
  - intros dst rsp. apply serveResponse_one_Write.
  - intros pending order wire Hnd. by apply run_atomic_wire.
Qed.

End WireFacts.

(** * More properties *)

(** ** The cancellation registry, further *)

Section RegistryMore.

Implicit Types (rc : requestCanceler) (f g : CancelFunc) (reqID : Z).

Lemma times_pos_elem f (l : list CancelFunc) : f ∈ l → 0 < times f l.
Proof.
  induction l as [|g l IH]; intros Hin.
  - by apply elem_of_nil in Hin.
  - rewrite times_cons. apply elem_of_cons in Hin as [->|Hin].
    + destruct (decide (g = g)); [lia|done].
    + specialize (IH Hin). lia.
Qed.

Lemma elem_times_zero f (l : list CancelFunc) : times f l = 0 → f ∉ l.
Proof. intros Hz Hin. apply times_pos_elem in Hin. lia. Qed.

Lemma values_elem (mp : gmap Z CancelFunc) reqID f :
  mp !! reqID = Some f → f ∈ values mp.
Proof.
  intros Hl. rewrite (values_lookup mp reqID f Hl). apply list_elem_of_here.
Qed.

(** X1. [cancelAll] calls every function the registry holds, as often as it
    holds it, and leaves the registry empty: after it [cancelRequest] and
    [finishRequest] of any id find nothing, and a second [cancelAll] calls
    nothing more. *)
Theorem cancelAll_calls_held_and_empties rc :
  (∀ f, times f (fired (cancelAll rc)) = times f (fired rc) + times f (values (m rc))) ∧
  (∀ reqID f, m rc !! reqID = Some f → f ∈ fired (cancelAll rc)) ∧
  (∀ reqID, m (cancelAll rc) !! reqID = None ∧
            cancelRequest reqID (cancelAll rc) = cancelAll rc ∧
            (finishRequest reqID (cancelAll rc)).2 = false) ∧
  cancelAll (cancelAll rc) = cancelAll rc.
Proof.
  split; [|split; [|split]].
  - intros f. simpl. by rewrite times_app.
  - intros reqID f Hl. simpl. apply elem_of_app. right. by eapply values_elem.
  - intros reqID.
    assert (Hn : m (cancelAll rc) !! reqID = None) by apply lookup_empty.
    split; [done|]. split; [by apply cancelRequest_absent|].
    unfold finishRequest, LoadAndDelete. by rewrite Hn.
  - unfold cancelAll at 1. simpl. by rewrite values_empty, app_nil_r.
Qed.

(** X2. [finishRequest] reports whether the id had an entry, calls nothing,
    and is idempotent: a second [finishRequest] of the id reports no entry
    and changes nothing. *)
Theorem finishRequest_reports_and_is_idempotent rc reqID :
  ((finishRequest reqID rc).2 = true ↔ is_Some (m rc !! reqID)) ∧
  fired (finishRequest reqID rc).1 = fired rc ∧
  finishRequest reqID (finishRequest reqID rc).1 = ((finishRequest reqID rc).1, false).
Proof.
  split; [|split; [done|]].
  - unfold finishRequest, LoadAndDelete. simpl. apply bool_decide_eq_true.
  - unfold finishRequest, LoadAndDelete. simpl.
    rewrite lookup_delete_eq, delete_delete_eq. done.
Qed.

(** X3. [cancelRequest] of an id just registered calls the function
    registered, once, and removes the entry; a second [cancelRequest] of the
    id calls nothing, and [finishRequest] reports no entry. *)
Theorem addRequest_then_cancelRequest rc reqID f :
  let rc1 := cancelRequest reqID (addRequest reqID f rc) in
  fired rc1 = fired rc ++ [f] ∧
  m rc1 = delete reqID (m rc) ∧
  cancelRequest reqID rc1 = rc1 ∧
  (finishRequest reqID rc1).2 = false.
Proof.
  intros rc1.
  assert (Hrc1 : rc1 = mkCanceler (delete reqID (m rc)) (fired rc ++ [f])).
  { subst rc1. rewrite (cancelRequest_present reqID _ f); [|apply lookup_insert_eq].
    simpl. by rewrite delete_insert_eq. }
  rewrite Hrc1. simpl. split; [done|]. split; [done|].
  assert (Hn : delete reqID (m rc) !! reqID = None) by apply lookup_delete_eq.
  split.
  - by apply cancelRequest_absent.
  - unfold finishRequest, LoadAndDelete. simpl. by rewrite Hn.
Qed.

(** X4. A call of [addRequest], [cancelRequest] or [finishRequest] on one id
    leaves the entry of every other id as it was. *)
Theorem registry_calls_leave_other_ids rc reqID other f :
  other ≠ reqID →
  m (addRequest reqID f rc) !! other = m rc !! other ∧
  m (cancelRequest reqID rc) !! other = m rc !! other ∧
  m (finishRequest reqID rc).1 !! other = m rc !! other.
Proof.
  intros Hne. split; [|split].
  - simpl. by rewrite lookup_insert_ne.
  - destruct (m rc !! reqID) as [g|] eqn:Hl.
    + rewrite (cancelRequest_present _ _ _ Hl). simpl. by rewrite lookup_delete_ne.
    + by rewrite (cancelRequest_absent _ _ Hl).
  - rewrite finishRequest_m. by rewrite lookup_delete_ne.
Qed.

(** X5. Over every sequence of calls on a new registry, the registry calls
    and holds only functions that were registered; and when no function is
    registered twice, a function that has been called is no longer held. *)
Theorem registry_calls_only_registered (calls : list registry_call) f :
  (f ∈ fired (registry_run calls newCanceler)
   ∨ f ∈ values (m (registry_run calls newCanceler)) →
   f ∈ registered calls) ∧
  (NoDup (registered calls) →
   f ∈ fired (registry_run calls newCanceler) →
   f ∉ values (m (registry_run calls newCanceler))).
Proof.
  pose proof (held_run f calls newCanceler) as Hh.
  unfold held in Hh. simpl in Hh. rewrite values_empty, !times_nil in Hh.
  split.
  - intros Hin. destruct (decide (f ∈ registered calls)) as [|Hnot]; [done|].
    rewrite (times_not_elem _ _ Hnot) in Hh.
    destruct Hin as [Hin|Hin]; apply times_pos_elem in Hin; lia.
  - intros Hnd Hf Hv.
    pose proof (times_NoDup f _ Hnd).
    apply times_pos_elem in Hf. apply times_pos_elem in Hv. lia.
Qed.

End RegistryMore.

(** ** The error model, further *)

Section TypesMore.

Context {dyn : Type} `{!GoLib dyn}.

(** X6. Classifying twice is classifying once: [WrapError] of the [Error]
    that [WrapError] returned gives that [Error] back; and a failure that
    [fmt.Errorf] wraps with [%w] is classified as the failure itself when
    there is a protocol [Error] in its chain, and as an internal error with
    the message of the wrapper when there is none. *)
Theorem WrapError_idempotent (err : GoError dyn) (format : string) :
  WrapError (ErrRpc (WrapError err)) = WrapError err ∧
  WrapError (fmt_Errorf_w format err)
  = match errors_As err with
    | Some e => e
    | None => mkError (-32603)%Z (fmt_Sprintf format [ArgError err]) None
    end.
Proof.
  split; [done|].
  unfold WrapError, fmt_Errorf_w. simpl. by destruct (errors_As err).
Qed.

End TypesMore.

(** ** More of the listener *)

Section ListenerMore.

Context {dyn H : Type} `{!GoLib dyn}.

Implicit Types (st : State dyn H) (dst : Conn dyn) (rsp : Response dyn).
Implicit Types (t : Task dyn H) (err : GoError dyn) (connCtx : Context).

Lemma with_canceler_same st : with_canceler (canceler (listener st)) st = st.
Proof. by destruct st as [[rc hs] c gs w n d r]. Qed.

(** The three ways [handleRequest] ends: it serves a response, or it only
    changes the registry, or it registers and starts a request. *)
Lemma handleRequest_shape connCtx (data : list byte) st :
  (∃ rsp, handleRequest connCtx data st = serve rsp st) ∨
  (∃ rc, handleRequest connCtx data st = (with_canceler rc st, None)) ∨
  (∃ (req : Request) (h : RequestHandler dyn H),
     req_ID req ≠ 0%Z ∧
     handlers (listener st) !! req_Method req = Some h ∧
     handleRequest connCtx data st
     = (spawn (mkTask connCtx req h (next_ctx st) (next_ctx st))
          (with_canceler (addRequest (req_ID req) (next_ctx st) (canceler (listener st)))
             (WithCancel connCtx st).2), None)).
Proof.
  unfold handleRequest.
  destruct (json_Unmarshal_Request data) as [req|err]; [|left; by eexists].
  destruct (req_ID req =? 0)%Z eqn:Hid.
  - unfold handleNotification.
    destruct (negb _); [left; by eexists|].
    destruct (json_Unmarshal_int _) as [n|e]; [|left; by eexists].
    destruct (n =? 0)%Z; [left; by eexists|].
    right. left. by eexists.
  - apply Z.eqb_neq in Hid.
    destruct (handlers (listener st) !! req_Method req) as [h|] eqn:Hh.
    + right. right. exists req, h. done.
    + left. by eexists.
Qed.

(** A request whose method has no handler. *)
Lemma handleRequest_unknown_method connCtx (data : list byte) (req : Request) st :
  json_Unmarshal_Request data = Ok req →
  req_ID req ≠ 0%Z →
  handlers (listener st) !! req_Method req = None →
  handleRequest connCtx data st
  = serve (mkResponse (req_ID req) None
             (Some (mkError (-32601)%Z
                      (fmt_Sprintf "method not found: %q" [ArgString (req_Method req)])
                      None))) st ∧
  listener (handleRequest connCtx data st).1 = listener st ∧
  goroutines (handleRequest connCtx data st).1 = goroutines st ∧
  next_ctx (handleRequest connCtx data st).1 = next_ctx st.
Proof.
  intros Hdec Hid Hh.
  assert (Hreq : handleRequest connCtx data st
                 = serve (mkResponse (req_ID req) None
                            (Some (mkError (-32601)%Z
                                     (fmt_Sprintf "method not found: %q"
                                        [ArgString (req_Method req)]) None))) st).
  { unfold handleRequest. rewrite Hdec.
    apply Z.eqb_neq in Hid. rewrite Hid, Hh. done. }
  rewrite Hreq, serve_listener, serve_goroutines. split; [done|]. split; [done|].
  split; [done|]. unfold serve. by destruct (serveResponse _ _).
Qed.

(** X7. A request with an id other than [0] whose method has no handler is
    answered at once with the [MethodNotFound] error under the id of the
    request: on an open connection this is one [Write] of the frame of the
    encoding of that response. No goroutine is started, no context is made
    and the registry is as before. *)
Theorem unknown_method_is_answered connCtx (data : list byte) (req : Request) st :
  json_Unmarshal_Request data = Ok req →
  req_ID req ≠ 0%Z →
  handlers (listener st) !! req_Method req = None →
  let rsp := mkResponse (req_ID req) None
               (Some (mkError (-32601)%Z
                        (fmt_Sprintf "method not found: %q" [ArgString (req_Method req)])
                        None)) in
  let st' := (handleRequest connCtx data st).1 in
  handleRequest connCtx data st = serve rsp st ∧
  (∀ enc, json_Marshal rsp = Ok enc → broken (conn st) = None →
          sent (conn st') = sent (conn st) ++ [frame enc]) ∧
  listener st' = listener st ∧
  goroutines st' = goroutines st ∧
  next_ctx st' = next_ctx st.
Proof.
  intros Hdec Hid Hh rsp st'.
  destruct (handleRequest_unknown_method connCtx data req st Hdec Hid Hh)
    as (Hreq & Hl & Hg & Hn).
  split; [exact Hreq|]. split; [|done].
  intros enc Henc Hopen. subst st'. rewrite Hreq. by apply served_on_open.
Qed.

(** A request whose method has a handler. *)
Lemma handleRequest_known_method connCtx (data : list byte) (req : Request)
    (h : RequestHandler dyn H) st :
  json_Unmarshal_Request data = Ok req →
  req_ID req ≠ 0%Z →
  handlers (listener st) !! req_Method req = Some h →
  let st' := (handleRequest connCtx data st).1 in
  (handleRequest connCtx data st).2 = None ∧
  conn st' = conn st ∧
  goroutines st' = goroutines st ++ [mkTask connCtx req h (next_ctx st) (next_ctx st)] ∧
  m (canceler (listener st')) = <[req_ID req := next_ctx st]> (m (canceler (listener st))) ∧
  fired (canceler (listener st')) = fired (canceler (listener st)) ∧
  next_ctx st' = S (next_ctx st) ∧
  derived st' = (next_ctx st, connCtx) :: derived st.
Proof.
  intros Hdec Hid Hh st'. subst st'.
  unfold handleRequest. rewrite Hdec.
  apply Z.eqb_neq in Hid. rewrite Hid, Hh. done.
Qed.

(** X8. A request with an id other than [0] whose method has a handler is
    not answered by [handleRequest]: nothing is written and no error is
    returned; a new context is made, its cancel function is registered
    under the id of the request, and one goroutine is started, for this
    request and this handler, under the new context. *)
Theorem known_method_is_registered_and_started connCtx (data : list byte) (req : Request)
    (h : RequestHandler dyn H) st :
  json_Unmarshal_Request data = Ok req →
  req_ID req ≠ 0%Z →
  handlers (listener st) !! req_Method req = Some h →
  let st' := (handleRequest connCtx data st).1 in
  (handleRequest connCtx data st).2 = None ∧
  conn st' = conn st ∧
  goroutines st' = goroutines st ++ [mkTask connCtx req h (next_ctx st) (next_ctx st)] ∧
  m (canceler (listener st')) = <[req_ID req := next_ctx st]> (m (canceler (listener st))) ∧
  fired (canceler (listener st')) = fired (canceler (listener st)) ∧
  next_ctx st' = S (next_ctx st) ∧
  derived st' = (next_ctx st, connCtx) :: derived st.
Proof. apply handleRequest_known_method. Qed.

(** X9. A cancellation notification whose parameters do not decode as an
    integer fails with the code of [InvalidParams] and is answered with that
    error under the id [0]: on an open connection this is one [Write] of the
    frame of the encoding of that response. The registry is as before. *)
Theorem notification_with_undecodable_params connCtx (data : list byte) (req : Request)
    err st :
  json_Unmarshal_Request data = Ok req →
  req_ID req = 0%Z →
  req_Method req = "$/cancelRequest" →
  json_Unmarshal_int (req_Params req) = Fail err →
  let rsp := mkResponse 0 None
               (Some (mkError (-32602)%Z
                        (fmt_Sprintf "cannot read params: %s" [ArgError err]) None)) in
  let st' := (handleRequest connCtx data st).1 in
  handleRequest connCtx data st = serve rsp st ∧
  (∀ enc, json_Marshal rsp = Ok enc → broken (conn st) = None →
          sent (conn st') = sent (conn st) ++ [frame enc]) ∧
  listener st' = listener st.
Proof.
  intros Hdec Hid Hm Hp rsp st'.
  assert (Hreq : handleRequest connCtx data st = serve rsp st).
  { unfold handleRequest. rewrite Hdec, Hid. simpl.
    rewrite (handleNotification_cancel _ _ Hm), Hp. done. }
  split; [exact Hreq|]. subst st'. rewrite Hreq. split; [|apply serve_listener].
  intros enc Henc Hopen. by apply served_on_open.
Qed.

(** X10. A cancellation notification for an id that has no entry in the
    registry does nothing at all: the state is as before, nothing is
    written and no error is returned. *)
Theorem cancel_of_unknown_id_changes_nothing connCtx (data : list byte) (req : Request)
    (n : Z) st :
  json_Unmarshal_Request data = Ok req →
  req_ID req = 0%Z →
  req_Method req = "$/cancelRequest" →
  json_Unmarshal_int (req_Params req) = Ok n →
  n ≠ 0%Z →
  m (canceler (listener st)) !! n = None →
  handleRequest connCtx data st = (st, None).
Proof.
  intros Hdec Hid Hm Hp Hn Habs.
  unfold handleRequest. rewrite Hdec, Hid. simpl.
  rewrite (handleNotification_cancel _ _ Hm), Hp.
  apply Z.eqb_neq in Hn. rewrite Hn.
  by rewrite (cancelRequest_absent _ _ Habs), with_canceler_same.
Qed.

(** The two ways [serveResponse] ends. *)
Lemma serveResponse_cases dst rsp :
  match (serveResponse dst rsp).2 with
  | Some _ => (serveResponse dst rsp).1 = dst
  | None => ∃ enc, json_Marshal rsp = Ok enc ∧ broken dst = None ∧
                   (serveResponse dst rsp).1 = mkConn (sent dst ++ [frame enc]) None
  end.
Proof.
  destruct (json_Marshal rsp) as [enc|err] eqn:Henc.
  - destruct (broken dst) as [e|] eqn:Hbr.
    + by rewrite (serveResponse_broken _ _ _ _ Henc Hbr).
    + rewrite (serveResponse_written _ _ _ Henc Hbr). simpl. by exists enc.
  - by rewrite (serveResponse_unencodable _ _ _ Henc).
Qed.

Lemma serve_effect rsp st :
  (serve rsp st).1 = with_conn (serveResponse (conn st) rsp).1 st.
Proof. unfold serve. by destruct (serveResponse (conn st) rsp). Qed.

Lemma serveResponse_sent_frame dst rsp :
  broken (serveResponse dst rsp).1 = broken dst ∧
  (sent (serveResponse dst rsp).1 = sent dst ∨
   ∃ enc, json_Marshal rsp = Ok enc ∧
          sent (serveResponse dst rsp).1 = sent dst ++ [frame enc]).
Proof.
  pose proof (serveResponse_cases dst rsp) as Hall.
  destruct ((serveResponse dst rsp).2).
  - rewrite Hall. split; [done|by left].
  - destruct Hall as (enc & Henc & Hbr & ->). simpl.
    split; [done|]. right. by exists enc.
Qed.

(** X12. The goroutine of a request gives up what it holds on every path,
    whether its handler returns or panics and whatever the state of the
    connection context: the entry of its id is removed from the registry
    without any call by the registry, its own cancel function is called
    once, and the handlers and the other goroutines are as before. *)
Theorem runTask_always_releases t (ctxErr : bool) st :
  let st' := runTask t ctxErr st in
  m (canceler (listener st')) = delete (req_ID (task_req t)) (m (canceler (listener st))) ∧
  fired (canceler (listener st')) = fired (canceler (listener st)) ∧
  released st' = released st ++ [task_cancelFn t] ∧
  handlers (listener st') = handlers (listener st) ∧
  goroutines st' = goroutines st ∧
  next_ctx st' = next_ctx st.
Proof.
  intros st'. subst st'. unfold runTask.
  destruct (task_handler t _ _ _) as [[out oerr|r] w].
  - destruct ctxErr; [done|]. rewrite serve_effect. done.
  - rewrite serve_effect. done.
Qed.

(** X13. The goroutine of a request writes at most once, and what it writes
    is the frame of a response that carries the id of the request. *)
Theorem runTask_writes_at_most_one_frame_for_its_id t (ctxErr : bool) st :
  broken (conn (runTask t ctxErr st)) = broken (conn st) ∧
  (sent (conn (runTask t ctxErr st)) = sent (conn st) ∨
   ∃ p, is_frame_for (req_ID (task_req t)) p ∧
        sent (conn (runTask t ctxErr st)) = sent (conn st) ++ [p]).
Proof.
  unfold runTask.
  destruct (task_handler t _ _ _) as [[out oerr|r] w].
  - destruct ctxErr; [split; [done|by left]|].
    rewrite serve_effect. simpl.
    destruct (serveResponse_sent_frame (conn st)
                (mkResponse (req_ID (task_req t)) out (WrapError <$> oerr)))
      as [Hbr [Hs|(enc & Henc & Hs)]]; (split; [done|]); [by left|].
    right. exists (frame enc). split; [|done].
    by exists (mkResponse (req_ID (task_req t)) out (WrapError <$> oerr)), enc.
  - rewrite serve_effect. simpl.
    destruct (serveResponse_sent_frame (conn st)
                (AsResponse (Errorf ErrorCodeInternalError "%s" [ArgAny r])
                   (req_ID (task_req t))))
      as [Hbr [Hs|(enc & Henc & Hs)]]; (split; [done|]); [by left|].
    right. exists (frame enc). split; [|done].
    by exists (AsResponse (Errorf ErrorCodeInternalError "%s" [ArgAny r])
                 (req_ID (task_req t))), enc.
Qed.

Lemma readLoop_blank connCtx (rd : ReadEvent dyn) (rest : list (ReadEvent dyn)) st :
  blank_read rd → readLoop connCtx (rd :: rest) st = readLoop connCtx rest st.
Proof.
  intros (Herr & Hlen & Hblank). simpl.
  destruct (0 <? length (rd_data rd))%nat eqn:H0; [|apply Nat.ltb_ge in H0; lia].
  by rewrite Hblank.
Qed.

(** X14. Blank lines are ignored: reads without error whose bytes are all
    white space leave the state as it is, and the loop goes on with the
    reads after them. *)
Theorem blank_lines_are_skipped connCtx (blanks rest : list (ReadEvent dyn)) st :
  Forall blank_read blanks →
  readLoop connCtx (blanks ++ rest) st = readLoop connCtx rest st.
Proof.
  induction 1 as [|rd blanks Hrd _ IH]; [done|].
  change ((rd :: blanks) ++ rest) with (rd :: (blanks ++ rest)).
  by rewrite (readLoop_blank _ _ _ _ Hrd).
Qed.

(** X15. A line that comes with a read error (the last line of a stream
    that does not end in a newline) is handled before the error is looked
    at: the loop returns in the state [handleRequest] leaves. *)
Theorem line_with_read_error_is_handled_first connCtx (raw : list byte) err
    (flag : bool) (rest : list (ReadEvent dyn)) st :
  TrimSpace raw ≠ [] →
  readLoop connCtx (mkRead raw (Some err) flag :: rest) st
  = ((handleRequest connCtx (TrimSpace raw) st).1, Some (read_error_result err flag)).
Proof.
  intros Hne. simpl.
  destruct (0 <? length raw)%nat eqn:H0.
  - destruct (length (TrimSpace raw) =? 0)%nat eqn:H1.
    { apply Nat.eqb_eq, length_zero_iff_nil in H1. done. }
    unfold read_error_result.
    by destruct (errors_Is_EOF err || errors_Is_ErrClosed err), flag.
  - apply Nat.ltb_ge in H0. destruct raw; [done|simpl in H0; lia].
Qed.

(** One turn of the loop: the state after the read is the state before or
    the state [handleRequest] leaves, and the loop goes on from it or
    returns in it what the read error gives. *)
Lemma readLoop_turn connCtx (rd : ReadEvent dyn) (rest : list (ReadEvent dyn)) st :
  ∃ st1,
    (st1 = st ∨ st1 = (handleRequest connCtx (TrimSpace (rd_data rd)) st).1) ∧
    (readLoop connCtx (rd :: rest) st = readLoop connCtx rest st1 ∨
     ∃ err, rd_err rd = Some err ∧
            readLoop connCtx (rd :: rest) st
            = (st1, Some (read_error_result err (rd_ctxErr rd)))).
Proof.
  simpl. unfold read_error_result.
  destruct (0 <? length (rd_data rd))%nat.
  - destruct (length (TrimSpace (rd_data rd)) =? 0)%nat.
    + exists st. split; [by left|by left].
    + eexists. split; [by right|].
      destruct (rd_err rd) as [err|]; [|by left].
      right. exists err. split; [done|].
      by destruct (errors_Is_EOF err || errors_Is_ErrClosed err), (rd_ctxErr rd).
  - exists st. split; [by left|].
    destruct (rd_err rd) as [err|]; [|by left].
    right. exists err. split; [done|].
    by destruct (errors_Is_EOF err || errors_Is_ErrClosed err), (rd_ctxErr rd).
Qed.

(** X16. The loop returns only on a read error. When it returns, one of the
    reads had an error and the result is what that error gives: nothing for
    [io.EOF], for [net.ErrClosed] and under a canceled connection context,
    else a failure that wraps the read error. While the reads have no
    error the loop does not return. *)
Theorem readLoop_returns_only_on_read_error connCtx (reads : list (ReadEvent dyn)) st :
  (∀ res, (readLoop connCtx reads st).2 = Some res →
     ∃ rd err, rd ∈ reads ∧ rd_err rd = Some err ∧
               res = read_error_result err (rd_ctxErr rd) ∧
               (∀ e, res = Some e →
                  Unwrap e = Some err ∧ errors_Is_EOF err = false ∧
                  errors_Is_ErrClosed err = false ∧ rd_ctxErr rd = false)) ∧
  (Forall (λ rd, rd_err rd = None) reads → (readLoop connCtx reads st).2 = None).
Proof.
  split.
  - revert st. induction reads as [|rd rest IH]; intros st res Hres; [done|].
    destruct (readLoop_turn connCtx rd rest st) as (st1 & _ & [Hgo|(err & Herr & Hret)]).
    + rewrite Hgo in Hres. destruct (IH _ _ Hres) as (rd' & err & Hin & Hrest).
      exists rd', err. split; [by apply list_elem_of_further|done].
    + rewrite Hret in Hres. simpl in Hres. injection Hres as <-.
      exists rd, err. split; [apply list_elem_of_here|]. split; [done|].
      split; [done|]. intros e. unfold read_error_result.
      destruct (errors_Is_EOF err), (errors_Is_ErrClosed err), (rd_ctxErr rd);
        simpl; try done.
      intros [= <-]. done.
  - intros Hall. revert st. induction Hall as [|rd rest Hrd _ IH]; intros st; [done|].
    destruct (readLoop_turn connCtx rd rest st) as (st1 & _ & [Hgo|(err & Herr & _)]).
    + by rewrite Hgo.
    + congruence.
Qed.

(** A relation between states that [handleRequest] establishes and that is
    reflexive and transitive holds between the state before and the state
    after the loop. *)
Lemma readLoop_preserves (R : State dyn H → State dyn H → Prop) connCtx :
  (∀ st, R st st) →
  (∀ st1 st2 st3, R st1 st2 → R st2 st3 → R st1 st3) →
  (∀ data st, R st (handleRequest connCtx data st).1) →
  ∀ (reads : list (ReadEvent dyn)) st, R st (readLoop connCtx reads st).1.
Proof.
  intros Hrefl Htrans Hstep reads.
  induction reads as [|rd rest IH]; intros st; [apply Hrefl|].
  destruct (readLoop_turn connCtx rd rest st) as (st1 & Hst1 & Hloop).
  assert (R st st1) as Hr1 by (destruct Hst1 as [->| ->]; [apply Hrefl|apply Hstep]).
  destruct Hloop as [Hgo|(err & _ & Hret)].
  - rewrite Hgo. eapply Htrans; [exact Hr1|apply IH].
  - by rewrite Hret.
Qed.

(** X17. The loop only appends to what the connection has received, and
    every chunk it appends is the frame of the encoding of a response. *)
Theorem readLoop_appends_only_frames connCtx (reads : list (ReadEvent dyn)) st :
  ∃ new : list (list byte),
    sent (conn (readLoop connCtx reads st).1) = sent (conn st) ++ new ∧
    Forall is_frame new ∧
    broken (conn (readLoop connCtx reads st).1) = broken (conn st).
Proof.
  apply (readLoop_preserves
           (λ st1 st2, ∃ new : list (list byte),
              sent (conn st2) = sent (conn st1) ++ new ∧ Forall is_frame new ∧
              broken (conn st2) = broken (conn st1))).
  - intros st1. exists []. by rewrite app_nil_r.
  - intros st1 st2 st3 (new1 & H1 & Hf1 & Hb1) (new2 & H2 & Hf2 & Hb2).
    exists (new1 ++ new2). rewrite H2, H1, app_assoc.
    split; [done|]. split; [by apply Forall_app|congruence].
  - intros data st1.
    destruct (handleRequest_shape connCtx data st1)
      as [(rsp & ->)|[(rc & ->)|(req & h & _ & _ & ->)]].
    + rewrite serve_conn.
      destruct (serveResponse_sent_frame (conn st1) rsp)
        as [Hbr [Hs|(enc & Henc & Hs)]].
      * exists []. by rewrite app_nil_r.
      * exists [frame enc]. split; [done|]. split; [|done].
        apply Forall_singleton. by exists rsp, enc.
    + exists []. by rewrite app_nil_r.
    + exists []. by rewrite app_nil_r.
Qed.

End ListenerMore.

Section ListenerLoopMore.

Context {dyn H : Type} `{!GoLib dyn}.

Implicit Types (st : State dyn H) (t : Task dyn H) (connCtx : Context).

Lemma started_none connCtx st1 st2 :
  goroutines st2 = goroutines st1 →
  handlers (listener st2) = handlers (listener st1) →
  next_ctx st2 = next_ctx st1 →
  started connCtx st1 st2 [].
Proof.
  intros Hg Hh Hn. unfold started. simpl. rewrite app_nil_r, Nat.add_0_r. done.
Qed.

Lemma started_refl connCtx st : started connCtx st st [].
Proof. by apply started_none. Qed.

Lemma started_trans connCtx st1 st2 st3 (new1 new2 : list (Task dyn H)) :
  started connCtx st1 st2 new1 → started connCtx st2 st3 new2 →
  started connCtx st1 st3 (new1 ++ new2).
Proof.
  intros (Hg1 & Hh1 & Hn1 & Hc1 & Hf1) (Hg2 & Hh2 & Hn2 & Hc2 & Hf2).
  unfold started. rewrite length_app, fmap_app, seq_app.
  split; [by rewrite Hg2, Hg1, app_assoc|].
  split; [congruence|]. split; [lia|].
  split; [by rewrite Hc1, Hc2, Hn1|].
  apply Forall_app. split; [done|].
  eapply Forall_impl; [exact Hf2|]. simpl. intros t Ht. by rewrite <- Hh1.
Qed.

Lemma started_handleRequest connCtx (data : list byte) st :
  ∃ new, started connCtx st (handleRequest connCtx data st).1 new.
Proof.
  destruct (handleRequest_shape connCtx data st)
    as [(rsp & ->)|[(rc & ->)|(req & h & Hid & Hh & ->)]].
  - exists []. rewrite serve_effect. by apply started_none.
  - exists []. by apply started_none.
  - exists [mkTask connCtx req h (next_ctx st) (next_ctx st)].
    unfold started. simpl. split; [done|]. split; [done|]. split; [lia|].
    split; [done|]. by apply Forall_singleton.
Qed.

(** X18. The goroutines the loop starts come after those that were there;
    each is for a request with an id other than [0], so none for a
    notification, and runs the handler that the table has for the method of
    its request; the handlers are as before; and each goroutine has a
    context of its own: the cancel functions of the goroutines started are
    the contexts made during the loop, one each, no two the same. *)
Theorem readLoop_starts_fresh_goroutines connCtx (reads : list (ReadEvent dyn)) st :
  ∃ new, started connCtx st (readLoop connCtx reads st).1 new ∧
         NoDup (task_cancelFn <$> new).
Proof.
  assert (∃ new, started connCtx st (readLoop connCtx reads st).1 new) as [new Hnew].
  { apply (readLoop_preserves (λ st1 st2, ∃ new, started connCtx st1 st2 new)).
    - intros st1. exists []. apply started_refl.
    - intros st1 st2 st3 [new1 H1] [new2 H2]. exists (new1 ++ new2).
      by eapply started_trans.
    - intros data st1. apply started_handleRequest. }
  exists new. split; [done|].
  destruct Hnew as (_ & _ & _ & -> & _). apply NoDup_seq.
Qed.

(** X19. When [ListenStream] returns, both deferred calls have run on the
    state the loop left: the registry is empty and every function it held
    has been called by [cancelAll], as often as it was held; and the cancel
    function of the connection context has been called, once, by the
    deferred [cancelFn()]. The connection and the goroutines are as the loop
    left them and the result is that of the loop. While the loop waits for
    a read, none of this has happened. *)
Theorem ListenStream_return_cancels_everything (ctx : Context)
    (reads : list (ReadEvent dyn)) st :
  let loop := readLoop (next_ctx st) reads (WithCancel ctx st).2 in
  let st' := (ListenStream ctx reads st).1 in
  (ListenStream ctx reads st).2 = loop.2 ∧
  (loop.2 ≠ None →
     m (canceler (listener st')) = ∅ ∧
     (∀ f, times f (fired (canceler (listener st'))) = held f (canceler (listener loop.1))) ∧
     released st' = released loop.1 ++ [next_ctx st] ∧
     conn st' = conn loop.1 ∧
     goroutines st' = goroutines loop.1) ∧
  (loop.2 = None → st' = loop.1).
Proof.
  intros loop st'. subst loop st'. unfold ListenStream. simpl.
  destruct (readLoop (next_ctx st) reads _) as [st2 [res|]]; simpl.
  - split; [done|]. split; [|done]. intros _.
    split; [done|]. split; [|done].
    intros f. unfold held. by rewrite times_app.
  - split; [done|]. split; [done|done].
Qed.

End ListenerLoopMore.

(** ** The driver service *)

Section ServerFacts.

Context {dyn H DR Package : Type} `{!GoLib dyn}.
Context `{!JSONType dyn (option (DriverRequestEnvelope DR))}.
Context `{!Boxed dyn (DriverResponse Package)}.

Implicit Types (st : State dyn H) (t : Task dyn H) (svc : Service).


(** X20. The listener of the service has one method. A request with an id
    other than [0] and any other method is answered with the
    [MethodNotFound] error under its id: on an open connection this is one
    [Write] of the frame of the encoding of that response. Nothing is
    started. *)
Theorem service_knows_one_method svc (connCtx : Context) (data : list byte)
    (req : Request) st :
  handlers (listener st) = handlers (Service_Listener svc) →
  json_Unmarshal_Request data = Ok req →
  req_ID req ≠ 0%Z →
  req_Method req ≠ "goPackageDriver/query" →
  let rsp := mkResponse (req_ID req) None
               (Some (mkError (-32601)%Z
                        (fmt_Sprintf "method not found: %q" [ArgString (req_Method req)])
                        None)) in
  let st' := (handleRequest connCtx data st).1 in
  handleRequest connCtx data st = serve rsp st ∧
  (∀ enc, json_Marshal rsp = Ok enc → broken (conn st) = None →
          sent (conn st') = sent (conn st) ++ [frame enc]) ∧
  goroutines st' = goroutines st.
Proof.
  intros Hhs Hdec Hid Hm rsp st'.
  assert (Hnone : handlers (listener st) !! req_Method req = None).
  { rewrite Hhs. simpl. by apply lookup_singleton_ne. }
  destruct (handleRequest_unknown_method connCtx data req st Hdec Hid Hnone)
    as (Hreq & _ & Hg & _).
  split; [exact Hreq|]. split; [|exact Hg].
  intros enc Henc Hopen. subst st'. rewrite Hreq. by apply served_on_open.
Qed.


(** *** The version of the runtime *)

Lemma strip_string_app (p s : string) : strip_string p (p +:+ s) = Some s.
Proof.
  induction p as [|a p IH]; simpl; [by destruct s|].
  by rewrite Ascii.eqb_refl.
Qed.

Lemma strip_string_Some (p s rest : string) :
  strip_string p s = Some rest → s = p +:+ rest.
Proof.
  revert s. induction p as [|a p IH]; intros s; simpl.
  - destruct s; by intros [= <-].
  - destruct s as [|b s]; [done|].
    destruct (Ascii.eqb a b) eqn:Hab; [|done].
    apply Ascii.eqb_eq in Hab as ->. intros Hs. by rewrite (IH _ Hs).
Qed.

Lemma leading_digits_app (ds rest : string) :
  all_digits ds = true → no_digit_ahead rest = true →
  leading_digits (ds +:+ rest) = ds.
Proof.
  intros Hds Hrest. induction ds as [|c ds IH]; simpl in *.
  - destruct rest as [|c rest]; [done|]. simpl in *.
    by destruct (is_digit c).
  - apply andb_true_iff in Hds as [Hc Hds]. by rewrite Hc, IH.
Qed.

Lemma leading_digits_split (s : string) :
  ∃ rest, s = leading_digits s +:+ rest ∧
          all_digits (leading_digits s) = true ∧ no_digit_ahead rest = true.
Proof.
  induction s as [|c s (rest & Hs & Hd & Hr)]; simpl.
  - by exists EmptyString.
  - destruct (is_digit c) eqn:Hc; simpl.
    + exists rest. rewrite Hc, Hd. split; [|done].
      change (String c s = String c (leading_digits s +:+ rest)). by f_equal.
    + exists (String c s). simpl. by rewrite Hc.
Qed.

Lemma digit_val_range (c : ascii) : is_digit c = true → (0 ≤ digit_val c ≤ 9)%Z.
Proof.
  unfold is_digit, digit_val. intros Hc.
  apply andb_true_iff in Hc as [H1 H2].
  apply Nat.leb_le in H1, H2. lia.
Qed.

Lemma decimal_value_nonneg (ds : string) : all_digits ds = true → (0 ≤ decimal_value ds)%Z.
Proof.
  induction ds as [|c ds IH]; simpl; [done|].
  intros Hds. apply andb_true_iff in Hds as [Hc Hds].
  pose proof (digit_val_range c Hc). specialize (IH Hds).
  assert (0 < 10 ^ Z.of_nat (String.length ds))%Z by (apply Z.pow_pos_nonneg; lia).
  nia.
Qed.

Lemma parse_digits_value (ds : string) (acc : Z) :
  all_digits ds = true →
  parse_digits acc ds
  = Some (acc * 10 ^ Z.of_nat (String.length ds) + decimal_value ds)%Z.
Proof.
  revert acc. induction ds as [|c ds IH]; intros acc Hds; simpl in *.
  - f_equal. lia.
  - apply andb_true_iff in Hds as [Hc Hds]. rewrite Hc, (IH _ Hds). f_equal.
    rewrite Nat2Z.inj_succ, Z.pow_succ_r by lia. lia.
Qed.

Lemma Atoi_digits (intSize : Z) (ds : string) :
  ds ≠ EmptyString → all_digits ds = true →
  Atoi intSize ds
  = if (decimal_value ds <? 2 ^ (intSize - 1))%Z then Some (decimal_value ds) else None.
Proof.
  intros Hne Hds. destruct ds as [|c ds]; [done|].
  assert (Hc : is_digit c = true) by (simpl in Hds; by apply andb_true_iff in Hds as [? _]).
  unfold Atoi.
  assert (Ascii.eqb c "+" = false ∧ Ascii.eqb c "-" = false) as [-> ->].
  { split; apply Ascii.eqb_neq; intros ->; done. }
  rewrite (parse_digits_value _ _ Hds). simpl (0 * _ + _)%Z. done.
Qed.

Lemma match_go1_here (ds rest : string) :
  ds ≠ EmptyString → all_digits ds = true → no_digit_ahead rest = true →
  match_go1 ("go1." +:+ ds +:+ rest) = Some ds.
Proof.
  intros Hne Hds Hrest. unfold match_go1.
  rewrite strip_string_app, (leading_digits_app _ _ Hds Hrest).
  by destruct ds.
Qed.

Lemma FindStringSubmatch_head (ds rest : string) :
  ds ≠ EmptyString → all_digits ds = true → no_digit_ahead rest = true →
  FindStringSubmatch ("go1." +:+ ds +:+ rest) = Some ds.
Proof.
  intros Hne Hds Hrest. unfold FindStringSubmatch.
  pose proof (match_go1_here ds rest Hne Hds Hrest) as Hm.
  change ("go1." +:+ ds +:+ rest) with (String "g" ("o1." +:+ ds +:+ rest)) in *.
  simpl find_go1. by rewrite Hm.
Qed.

(** X22. A version that begins with [go1.], then digits, then the end or a
    character that is no digit, gives the number the digits spell as the
    minor version, with the compiler and the architecture as given,
    provided the number fits an [int]; leading zeros do not matter. *)
Theorem BuildRuntimeInfo_reads_the_minor_version (intSize : Z)
    (ds rest compiler goarch : string) :
  ds ≠ EmptyString → all_digits ds = true → no_digit_ahead rest = true →
  (decimal_value ds < 2 ^ (intSize - 1))%Z →
  BuildRuntimeInfo intSize ("go1." +:+ ds +:+ rest) compiler goarch
  = (mkRuntimeInfo (decimal_value ds) compiler goarch, None).
Proof.
  intros Hne Hds Hrest Hfit. unfold BuildRuntimeInfo.
  rewrite (FindStringSubmatch_head _ _ Hne Hds Hrest), (Atoi_digits _ _ Hne Hds).
  apply Z.ltb_lt in Hfit. by rewrite Hfit.
Qed.

(** X23. When the digits after [go1.] spell a number that does not fit an
    [int], the result is the zero [RuntimeInfo] and the error "go minor
    version is not a number", with the digits and the version. *)
Theorem BuildRuntimeInfo_rejects_a_number_too_large (intSize : Z)
    (ds rest compiler goarch : string) :
  ds ≠ EmptyString → all_digits ds = true → no_digit_ahead rest = true →
  (2 ^ (intSize - 1) ≤ decimal_value ds)%Z →
  BuildRuntimeInfo intSize ("go1." +:+ ds +:+ rest) compiler goarch
  = (zero_RuntimeInfo,
     Some (ErrOpaque (fmt_Sprintf "go minor version is not a number: %q (in %q)"
                        [ArgString ds; ArgString ("go1." +:+ ds +:+ rest)]))).
Proof.
  intros Hne Hds Hrest Hbig. unfold BuildRuntimeInfo.
  rewrite (FindStringSubmatch_head _ _ Hne Hds Hrest), (Atoi_digits _ _ Hne Hds).
  apply Z.ltb_ge in Hbig. by rewrite Hbig.
Qed.

Lemma find_go1_no_line (s : string) :
  has_newline s = false → find_go1 false s = None.
Proof.
  induction s as [|c s IH]; [done|]. simpl.
  intros Hnl. apply orb_false_iff in Hnl as [Hc Hnl]. rewrite Hc. by apply IH.
Qed.

(** X24. A version of one line that does not begin with [go1.] and a digit
    gives the zero [RuntimeInfo] and the error "failed to parse Go
    version", with the version. *)
Theorem BuildRuntimeInfo_rejects_other_versions (intSize : Z)
    (rv compiler goarch : string) :
  has_newline rv = false →
  (∀ rest, rv = "go1." +:+ rest → no_digit_ahead rest = true) →
  BuildRuntimeInfo intSize rv compiler goarch
  = (zero_RuntimeInfo,
     Some (ErrOpaque (fmt_Sprintf "failed to parse Go version: %q" [ArgString rv]))).
Proof.
  intros Hnl Hhead. unfold BuildRuntimeInfo.
  assert (Hfind : FindStringSubmatch rv = None); [|by rewrite Hfind].
  unfold FindStringSubmatch. destruct rv as [|c rv]; [done|].
  assert (Hm : match_go1 (String c rv) = None).
  { unfold match_go1. destruct (strip_string "go1." (String c rv)) as [rest|] eqn:Hs; [|done].
    apply strip_string_Some in Hs. specialize (Hhead rest Hs).
    destruct rest as [|d rest]; [done|]. simpl in *.
    by destruct (is_digit d). }
  simpl find_go1. rewrite Hm.
  simpl in Hnl. apply orb_false_iff in Hnl as [Hc Hnl]. rewrite Hc.
  by apply find_go1_no_line.
Qed.

Lemma match_go1_Some (s ds : string) :
  match_go1 s = Some ds →
  ∃ rest, s = "go1." +:+ ds +:+ rest ∧ ds ≠ EmptyString ∧
          all_digits ds = true ∧ no_digit_ahead rest = true.
Proof.
  unfold match_go1.
  destruct (strip_string "go1." s) as [tail|] eqn:Hs; [|done].
  apply strip_string_Some in Hs.
  destruct (leading_digits_split tail) as (rest & Htail & Hd & Hr).
  destruct (leading_digits tail) as [|c ds'] eqn:Hl; [done|].
  intros [= <-]. exists rest. rewrite Hs, Htail. done.
Qed.

Lemma find_go1_Some (s ds : string) (bol : bool) :
  find_go1 bol s = Some ds →
  ∃ pre rest, s = pre +:+ "go1." +:+ ds +:+ rest ∧
    ds ≠ EmptyString ∧ all_digits ds = true ∧ no_digit_ahead rest = true ∧
    ((pre = EmptyString ∧ bol = true) ∨ ∃ p, pre = p +:+ String "010" EmptyString).
Proof.
  revert bol. induction s as [|c s IH]; intros bol; [done|].
  simpl find_go1.
  destruct (if bol then match_go1 (String c s) else None) as [ds'|] eqn:Hm.
  - intros [= ->]. destruct bol; [|done].
    destruct (match_go1_Some _ _ Hm) as (rest & Hs & Hne & Hd & Hr).
    exists EmptyString, rest. split; [done|]. split; [done|]. split; [done|].
    split; [done|]. by left.
  - intros Hf. destruct (IH _ Hf) as (pre & rest & Hs & Hne & Hd & Hr & Hpre).
    exists (String c pre), rest. split; [simpl; by rewrite Hs|].
    split; [done|]. split; [done|]. split; [done|]. right.
    destruct Hpre as [[-> Hbol]|[p ->]].
    + apply Ascii.eqb_eq in Hbol as ->. by exists EmptyString.
    + by exists (String c p).
Qed.

(** X25. When [BuildRuntimeInfo] returns no error, the version has a line
    that begins with [go1.] and digits, the minor version is the number
    these digits spell, it is not negative and fits an [int], and the
    compiler and the architecture are those given. When it returns an
    error, the [RuntimeInfo] is the zero value. *)
Theorem BuildRuntimeInfo_sound (intSize : Z) (rv compiler goarch : string) :
  ((BuildRuntimeInfo intSize rv compiler goarch).2 = None →
   ∃ pre ds rest,
     rv = pre +:+ "go1." +:+ ds +:+ rest ∧
     (pre = EmptyString ∨ ∃ p, pre = p +:+ String "010" EmptyString) ∧
     ds ≠ EmptyString ∧ all_digits ds = true ∧ no_digit_ahead rest = true ∧
     (0 ≤ decimal_value ds < 2 ^ (intSize - 1))%Z ∧
     (BuildRuntimeInfo intSize rv compiler goarch).1
     = mkRuntimeInfo (decimal_value ds) compiler goarch) ∧
  ((BuildRuntimeInfo intSize rv compiler goarch).2 ≠ None →
   (BuildRuntimeInfo intSize rv compiler goarch).1 = zero_RuntimeInfo).
Proof.
  unfold BuildRuntimeInfo.
  destruct (FindStringSubmatch rv) as [ds|] eqn:Hfind; [|split; done].
  destruct (find_go1_Some _ _ _ Hfind) as (pre & rest & Hrv & Hne & Hd & Hr & Hpre).
  rewrite (Atoi_digits _ _ Hne Hd).
  destruct (decimal_value ds <? 2 ^ (intSize - 1))%Z eqn:Hfit; [|split; done].
  split; [|done]. intros _.
  exists pre, ds, rest. split; [done|].
  split; [destruct Hpre as [[-> _]|?]; [by left|by right]|].
  split; [done|]. split; [done|]. split; [done|].
  apply Z.ltb_lt in Hfit. pose proof (decimal_value_nonneg ds Hd).
  split; [lia|done].
Qed.

End ServerFacts.

Section RequestLifeMore.

Context {dyn H : Type} `{!GoLib dyn}.

Implicit Types (st : State dyn H) (t : Task dyn H) (connCtx : Context).

(** X26. A cancellation notification for an id that has an entry removes
    the entry and calls its cancel function, once; nothing is written, no
    goroutine is started, and a second notification for the id changes
    nothing. *)
Theorem cancel_notification_calls_the_cancel_function connCtx (data : list byte)
    (req : Request) (n : Z) (f : CancelFunc) st :
  json_Unmarshal_Request data = Ok req →
  req_ID req = 0%Z →
  req_Method req = "$/cancelRequest" →
  json_Unmarshal_int (req_Params req) = Ok n →
  n ≠ 0%Z →
  m (canceler (listener st)) !! n = Some f →
  let st' := (handleRequest connCtx data st).1 in
  (handleRequest connCtx data st).2 = None ∧
  m (canceler (listener st')) = delete n (m (canceler (listener st))) ∧
  fired (canceler (listener st')) = fired (canceler (listener st)) ++ [f] ∧
  conn st' = conn st ∧
  goroutines st' = goroutines st ∧
  handleRequest connCtx data st' = (st', None).
Proof.
  intros Hdec Hid Hm Hp Hn Hl st'.
  assert (Hreq : ∀ st0, handleRequest connCtx data st0
                 = (with_canceler (cancelRequest n (canceler (listener st0))) st0, None)).
  { intros st0. unfold handleRequest. rewrite Hdec, Hid. simpl.
    rewrite (handleNotification_cancel _ _ Hm), Hp.
    apply Z.eqb_neq in Hn. by rewrite Hn. }
  subst st'. rewrite !Hreq. simpl.
  rewrite (cancelRequest_present _ _ _ Hl). simpl.
  split; [done|]. split; [done|]. split; [done|]. split; [done|]. split; [done|].
  rewrite cancelRequest_absent by apply lookup_delete_eq. done.
Qed.

(** X27. When the handler of a request returns and the connection context
    is live at the test, the goroutine serves one response under the id of
    the request: it carries the result the handler returned, also beside an
    error, and the error classified by [WrapError], if the handler returned
    one. On an open connection, if the response encodes, this is one
    [Write] of its frame. The world is as the handler left it. *)
Theorem runTask_answers_what_the_handler_returned t st (out : option dyn)
    (oerr : option (GoError dyn)) (w : H) :
  task_handler t (task_reqCtx t) (req_Params (task_req t)) (world st)
  = (Returned out oerr, w) →
  let rsp := mkResponse (req_ID (task_req t)) out (WrapError <$> oerr) in
  conn (runTask t false st) = (serveResponse (conn st) rsp).1 ∧
  world (runTask t false st) = w ∧
  (∀ enc, json_Marshal rsp = Ok enc → broken (conn st) = None →
          sent (conn (runTask t false st)) = sent (conn st) ++ [frame enc]).
Proof.
  intros Hrun rsp.
  assert (Hconn : conn (runTask t false st) = (serveResponse (conn st) rsp).1)
    by exact (runTask_returned_live t st out oerr w Hrun).
  split; [exact Hconn|]. split.
  - unfold runTask. rewrite Hrun. by rewrite serve_effect.
  - intros enc Henc Hopen.
    by rewrite Hconn, (serveResponse_written _ _ _ Henc Hopen).
Qed.

End RequestLifeMore.

(** ** The definitions at work *)

Import Sample.

Lemma bytes_eqb_refl (a : list byte) : bytes_eqb a a = true.
Proof.
  induction a as [|x a IH]; [done|]. simpl.
  rewrite IH. by destruct x.
Qed.

Lemma bytes_eqb_neq (a b : list byte) : bytes_eqb a b = false → a ≠ b.
Proof. intros Hf ->. by rewrite bytes_eqb_refl in Hf. Qed.

(** C1. [serveResponse] on the response [{"id":1,"result":{"pong":true}}]
    and an open connection makes one [Write]: 1024 zero bytes, then the
    encoding and the newline. The line alone is not what is written. *)
Theorem serveResponse_pong_writes_zero_bytes_first :
  let rsp := mkResponse 1 (Some (Raw (js "{'pong':true}"))) None in
  json_Marshal rsp = Ok pong_text ∧
  sent (serveResponse open_conn rsp).1 = [repeat x00 1024 ++ pong_text ++ [x0a]] ∧
  sent (serveResponse open_conn rsp).1 ≠ [pong_text ++ [x0a]].
Proof.
  intros rsp. split; [by vm_compute|]. split; [by vm_compute|].
  intros Heq. apply (f_equal (λ l, length <$> l)) in Heq.
  vm_compute in Heq. discriminate.
Qed.

(** C2. The request with id [2] and method ["boom"] is accepted from
    [start]; its handler panics. With the connection context canceled when
    the goroutine runs, the [InternalError] response is written all the
    same. *)
Theorem panic_response_written_after_cancel :
  let st := (handleRequest 1 boom_line start).1 in
  goroutines st = [boom_task] ∧
  sent (conn st) = [] ∧
  sent (conn (runTask boom_task true st))
  = [frame (bytes "{'id':2,'error':{'code':-32603,'message':'boom'}}")].
Proof. intros st. split; [by vm_compute|]. split; by vm_compute. Qed.

(** C6. From [idle], a first read returns one space with an error that is
    neither [io.EOF] nor [net.ErrClosed], the connection context being live. The
    loop does not return: alone, the read leaves it waiting for the next
    one; followed by a request line and the end of the stream, the request
    is dispatched and [ListenStream] returns no failure. *)
Theorem blank_read_error_is_dropped :
  let timeout : GoError dyn := ErrOpaque "i/o timeout" in
  let blank := mkRead [x20] (Some timeout) false in
  let reads := [blank; mkRead (ping_line ++ [x0a]) None false;
                mkRead [] (Some ErrEOF) false] in
  errors_Is_EOF timeout = false ∧
  errors_Is_ErrClosed timeout = false ∧
  (ListenStream 0 [blank] idle).2 = None ∧
  (ListenStream 0 reads idle).2 = Some None ∧
  length (goroutines (ListenStream 0 reads idle).1) = 1.
Proof. repeat split; by vm_compute. Qed.

(** C9, as stated, fails: two goroutines have the frames of two responses
    pending, and a schedule puts the second frame on the wire between the
    bytes of the first. *)
Lemma frames_interleave_without_lock :
  let f1 := frame pong_text in
  let f2 := frame pong2_text in
  let s := run_schedule [(0, 1030); (1, 2000); (0, 2000)] ([f1; f2], []) in
  all_written s = true ∧ s.2 ≠ f1 ++ f2 ∧ s.2 ≠ f2 ++ f1.
Proof.
  intros f1 f2 s. split; [by vm_compute|].
  split; apply bytes_eqb_neq; by vm_compute.
Qed.

Lemma frames_whole_when_Write_is_atomic_witness :
  NoDup [1; 0] ∧
  (run_atomic [1; 0] ([frame pong_text; frame pong2_text], [])).2
  = [] ++ concat (map (pending_of [frame pong_text; frame pong2_text]) [1; 0]).
Proof.
  assert (Hnd : NoDup [1; 0]) by (by apply (bool_decide_unpack _)).
  split; [exact Hnd|].
  exact (proj2 (frames_whole_when_Write_is_atomic (dyn:=dyn)) _ _ _ Hnd).
Defined.

(** C8, as stated, fails: a failure that wraps a protocol [Error] is not
    returned unchanged; the wrapped [Error] is, and its message is not the
    message of the failure. *)
Lemma WrapError_drops_the_wrapper :
  let e := mkError ErrorCodeInvalidParams "missing request ID" None in
  let failure : GoError dyn :=
    ErrWrap "query failed: missing request ID (code: -32602)" (ErrRpc e) in
  errors_As failure = Some e ∧
  ErrRpc (WrapError failure) ≠ failure ∧
  error_string (ErrRpc (WrapError failure)) ≠ error_string failure.
Proof.
  intros e failure. split; [done|]. split; [done|].
  vm_compute. discriminate.
Qed.

Lemma WrapError_classifies_witness :
  let e : Error dyn := mkError ErrorCodeInvalidParams "missing request ID" None in
  errors_As (ErrRpc e) ≠ None ∧
  WrapError (ErrWrap "query failed" (ErrRpc e)) = WrapError (ErrRpc e) ∧
  errors_As (ErrOpaque "disk full" : GoError dyn) = None ∧
  WrapError (ErrOpaque "disk full" : GoError dyn) = mkError (-32603)%Z "disk full" None.
Proof.
  intros e.
  assert (H1 : errors_As (ErrRpc e) ≠ None) by done.
  assert (H2 : errors_As (ErrOpaque "disk full" : GoError dyn) = None) by done.
  split; [exact H1|]. split.
  - exact (proj1 (proj2 WrapError_classifies) "query failed"%string (ErrRpc e) H1).
  - split; [exact H2|].
    exact (proj2 (proj2 WrapError_classifies) (ErrOpaque "disk full") H2).
Defined.

Lemma registry_cancels_at_most_once_witness :
  let calls := [CallAdd 1 5; CallCancel 1; CallCancel 1; CallAdd 2 6;
                CallFinish 2; CallCancel 2; CallAdd 3 7; CallCancelAll] in
  (m newCanceler !! 9%Z = None ∧ cancelRequest 9 newCanceler = newCanceler) ∧
  (NoDup (registered calls) ∧
   times 5 (fired (registry_run calls newCanceler)) ≤ 1).
Proof.
  intros calls.
  assert (Habs : m newCanceler !! 9%Z = None) by done.
  assert (Hnd : NoDup (registered calls)) by (by apply (bool_decide_unpack _)).
  split; split; [exact Habs| |exact Hnd|].
  - exact (proj1 registry_cancels_at_most_once newCanceler 9%Z Habs).
  - exact (proj2 (proj2 registry_cancels_at_most_once) calls 5 Hnd).
Defined.

Lemma addRequest_replaces_silently_witness :
  let rc := addRequest 7 10 newCanceler in
  let calls := [CallCancel 7; CallFinish 7; CallCancelAll] in
  (m rc !! 7%Z = Some 10 ∧ times 10 (values (m rc)) = 1 ∧ 10 ≠ 11 ∧
   10 ∉ registered calls) ∧
  (m (addRequest 7 11 rc) !! 7%Z = Some 11 ∧
   fired (addRequest 7 11 rc) = fired rc ∧
   times 10 (fired (registry_run calls (addRequest 7 11 rc))) = times 10 (fired rc)).
Proof.
  intros rc calls.
  assert (H1 : m rc !! 7%Z = Some 10) by done.
  assert (H2 : times 10 (values (m rc)) = 1) by done.
  assert (H3 : 10 ≠ 11) by done.
  assert (H4 : 10 ∉ registered calls) by apply not_elem_of_nil.
  split; [done|].
  exact (proj1 addRequest_replaces_silently rc 7%Z 10 11 calls H1 H2 H3 H4).
Defined.

Lemma malformed_line_answered_and_loop_goes_on_witness :
  let data := bytes "garbage" in
  let err : GoError dyn := ErrOpaque "invalid character in request" in
  let rsp := mkResponse 0 None (Some (mkError (-32700)%Z (error_string err) None)) in
  json_Unmarshal_Request data = Fail err ∧
  handleRequest 1 data start = serve rsp start ∧
  readLoop 1 [mkRead (data ++ [x0a]) None false] start
  = readLoop 1 [] (serve rsp start).1.
Proof.
  intros data err rsp.
  assert (Hdec : json_Unmarshal_Request data = Fail err) by done.
  destruct (malformed_line_answered_and_loop_goes_on 1 data err start Hdec)
    as (Hreq & _ & Hloop).
  split; [exact Hdec|]. split; [exact Hreq|].
  apply Hloop; [simpl; lia|done|done].
Defined.

Lemma notification_dispatch_witness :
  let L := Sample2.lib2 in
  let hello := mkRequest 0 "hello" [] in
  let zero := mkRequest 0 "$/cancelRequest" (bytes "0") in
  let bad := mkRequest 0 "$/cancelRequest" (bytes "'x'") in
  let one := mkRequest 0 "$/cancelRequest" (bytes "1") in
  let hello_enc :=
    bytes "{'id':0,'error':{'code':-32601,'message':'unsupported notification \'hello\''}}" in
  let zero_enc :=
    bytes "{'id':0,'error':{'code':-32602,'message':'missing request ID'}}" in
  let bad_enc :=
    bytes ("{'id':0,'error':{'code':-32602,'message':'cannot read params: "
           +:+ "cannot unmarshal into Go value of type int'}}") in
  (json_Unmarshal_Request (GoLib:=L) hello_line = Ok hello ∧
   req_Method hello ≠ "$/cancelRequest" ∧
   sent (conn (handleRequest (GoLib0:=L) 1 hello_line pinged).1)
   = sent (conn pinged) ++ [frame hello_enc]) ∧
  (json_Unmarshal_Request (GoLib:=L) cancel0_line = Ok zero ∧
   json_Unmarshal_int (GoLib:=L) (req_Params zero) = Ok 0%Z ∧
   sent (conn (handleRequest (GoLib0:=L) 1 cancel0_line pinged).1)
   = sent (conn pinged) ++ [frame zero_enc]) ∧
  (json_Unmarshal_Request (GoLib:=L) Sample2.cancel_x_line = Ok bad ∧
   json_Unmarshal_int (GoLib:=L) (req_Params bad)
   = Fail (ErrOpaque "cannot unmarshal into Go value of type int") ∧
   sent (conn (handleRequest (GoLib0:=L) 1 Sample2.cancel_x_line pinged).1)
   = sent (conn pinged) ++ [frame bad_enc]) ∧
  (json_Unmarshal_Request (GoLib:=L) cancel1_line = Ok one ∧
   json_Unmarshal_int (GoLib:=L) (req_Params one) = Ok 1%Z ∧
   m (canceler (listener pinged)) !! 1%Z = Some 2 ∧
   conn (handleRequest (GoLib0:=L) 1 cancel1_line pinged).1 = conn pinged ∧
   m (canceler (listener (handleRequest (GoLib0:=L) 1 cancel1_line pinged).1))
   = delete 1%Z (m (canceler (listener pinged))) ∧
   fired (canceler (listener (handleRequest (GoLib0:=L) 1 cancel1_line pinged).1))
   = fired (canceler (listener pinged)) ++ [2]).
Proof.
  intros L hello zero bad one hello_enc zero_enc bad_enc.
  assert (Hh : json_Unmarshal_Request (GoLib:=L) hello_line = Ok hello) by done.
  assert (H0 : json_Unmarshal_Request (GoLib:=L) cancel0_line = Ok zero) by done.
  assert (Hx : json_Unmarshal_Request (GoLib:=L) Sample2.cancel_x_line = Ok bad) by done.
  assert (H1 : json_Unmarshal_Request (GoLib:=L) cancel1_line = Ok one) by done.
  assert (Hm : req_Method hello ≠ "$/cancelRequest") by done.
  assert (Hz : json_Unmarshal_int (GoLib:=L) (req_Params zero) = Ok 0%Z) by done.
  assert (Hb : json_Unmarshal_int (GoLib:=L) (req_Params bad)
               = Fail (ErrOpaque "cannot unmarshal into Go value of type int")) by done.
  assert (Hn : json_Unmarshal_int (GoLib:=L) (req_Params one) = Ok 1%Z) by done.
  assert (Hnz : 1%Z ≠ 0%Z) by done.
  assert (Hl : m (canceler (listener pinged)) !! 1%Z = Some 2) by done.
  assert (Hopen : broken (conn pinged) = None) by done.
  split; [|split; [|split]].
  - split; [exact Hh|]. split; [exact Hm|].
    destruct (proj1 (notification_dispatch (GoLib0:=L) 1 hello_line hello pinged
                       Hh eq_refl) Hm) as (_ & _ & _ & Hsent).
    exact (Hsent hello_enc eq_refl Hopen).
  - split; [exact H0|]. split; [exact Hz|].
    destruct (proj1 (proj2 (notification_dispatch (GoLib0:=L) 1 cancel0_line zero pinged
                              H0 eq_refl)) eq_refl Hz) as (_ & _ & _ & Hsent).
    exact (Hsent zero_enc eq_refl Hopen).
  - split; [exact Hx|]. split; [exact Hb|].
    destruct (proj1 (proj2 (proj2 (notification_dispatch (GoLib0:=L) 1
                                     Sample2.cancel_x_line bad pinged Hx eq_refl)))
                eq_refl _ Hb) as (_ & _ & _ & Hsent).
    exact (Hsent bad_enc eq_refl Hopen).
  - split; [exact H1|]. split; [exact Hn|]. split; [exact Hl|].
    destruct (proj2 (proj2 (proj2 (notification_dispatch (GoLib0:=L) 1 cancel1_line
                                     one pinged H1 eq_refl)))
                eq_refl 1%Z Hn Hnz) as (_ & Hconn & _ & Hmap & Hfired).
    split; [exact Hconn|]. split; [exact Hmap|].
    exact Hfired.
Defined.

(** C7, as stated, fails: a cancellation notification whose parameters are
    the string ["x"] is none of the first two cases, yet no cancel is run:
    the registry is as before, and a response is written. *)
Lemma cancel_with_undecodable_payload_is_answered :
  let L := Sample2.lib2 in
  let req := mkRequest 0 "$/cancelRequest" (bytes "'x'") in
  let st' := (handleRequest (GoLib0:=L) 1 Sample2.cancel_x_line pinged).1 in
  json_Unmarshal_Request (GoLib:=L) Sample2.cancel_x_line = Ok req ∧
  req_ID req = 0%Z ∧
  req_Method req = NotificationCancelRequest ∧
  json_Unmarshal_int (GoLib:=L) (req_Params req) ≠ Ok 0%Z ∧
  canceler (listener st') = canceler (listener pinged) ∧
  length (sent (conn pinged)) = 0 ∧
  length (sent (conn st')) = 1.
Proof. repeat split; by vm_compute. Qed.

(** What the sample run of C7 does to the registry: the entry of the
    request with id [1] is removed and its cancel function called, once. *)
Example cancel_notification_cancels_request_1 :
  m (canceler (listener pinged)) !! 1%Z = Some 2 ∧
  let st := (handleRequest 1 cancel1_line pinged).1 in
  m (canceler (listener st)) !! 1%Z = None ∧
  fired (canceler (listener st)) = [2] ∧
  sent (conn st) = [].
Proof. repeat split; by vm_compute. Qed.

(** What the adapter of C4 does on sample bytes. *)
Example typed_handler_on_sample_bytes :
  NewHandler (traced positive_fn) 4 (bytes "12") (tt, [])
  = (Returned (Some (Raw "true")) None, (tt, [(4, 12%Z)])) ∧
  NewHandler (traced positive_fn) 4 (bytes "twelve") (tt, [])
  = (Returned None
       (Some (ErrRpc (mkError (-32700)%Z "cannot unmarshal into Go value of type int" None))),
     (tt, [])).
Proof. split; by vm_compute. Qed.

(** What C10 means for two requests in flight with one id: the entry holds
    the cancel function of the second; when the goroutine of the first
    ends, no entry is left, and a cancellation notification for the id
    then calls nothing, though the second request is still in flight. *)
Example shared_id_first_finish_removes_entry :
  (task_cancelFn <$> goroutines pinged_twice) = [2; 3] ∧
  m (canceler (listener pinged_twice)) !! 1%Z = Some 3 ∧
  ∃ t1 t2, goroutines pinged_twice = [t1; t2] ∧
    let st := runTask t1 false pinged_twice in
    m (canceler (listener st)) !! 1%Z = None ∧
    fired (canceler (listener (handleRequest 1 cancel1_line st).1)) = [].
Proof.
  split; [by vm_compute|]. split; [by vm_compute|].
  eexists _, _. split; [by vm_compute|]. split; by vm_compute.
Qed.

(** ** More of the definitions at work *)

Import Sample2.

Lemma cancelAll_calls_held_and_empties_witness :
  let rc := addRequest 7 10 (addRequest 8 11 newCanceler) in
  m rc !! 7%Z = Some 10 ∧ 10 ∈ fired (cancelAll rc).
Proof.
  intros rc.
  assert (Hl : m rc !! 7%Z = Some 10) by done.
  split; [exact Hl|].
  exact (proj1 (proj2 (cancelAll_calls_held_and_empties rc)) 7%Z 10 Hl).
Defined.

Lemma registry_calls_leave_other_ids_witness :
  let rc := addRequest 7 10 (addRequest 8 11 newCanceler) in
  8%Z ≠ 7%Z ∧
  m (addRequest 7 12 rc) !! 8%Z = m rc !! 8%Z ∧
  m (cancelRequest 7 rc) !! 8%Z = m rc !! 8%Z ∧
  m (finishRequest 7 rc).1 !! 8%Z = m rc !! 8%Z.
Proof.
  intros rc.
  assert (Hne : 8%Z ≠ 7%Z) by done.
  split; [exact Hne|].
  exact (registry_calls_leave_other_ids rc 7%Z 8%Z 12 Hne).
Defined.

Lemma registry_calls_only_registered_witness :
  let calls := [CallAdd 1 5; CallAdd 2 6; CallCancel 1; CallFinish 3] in
  (5 ∈ fired (registry_run calls newCanceler) ∧ 5 ∈ registered calls) ∧
  (NoDup (registered calls) ∧ 5 ∉ values (m (registry_run calls newCanceler))).
Proof.
  intros calls.
  assert (Hf : 5 ∈ fired (registry_run calls newCanceler))
    by (by apply (bool_decide_unpack _)).
  assert (Hnd : NoDup (registered calls)) by (by apply (bool_decide_unpack _)).
  split; split; [exact Hf| |exact Hnd|].
  - exact (proj1 (registry_calls_only_registered calls 5) (or_introl Hf)).
  - exact (proj2 (registry_calls_only_registered calls 5) Hnd Hf).
Defined.

Lemma readLoop_returns_only_on_read_error_witness :
  let reset : GoError dyn := ErrOpaque "connection reset by peer" in
  let reads := [mkRead (ping_line ++ [x0a]) None false; mkRead [] (Some reset) false] in
  let res := Some (fmt_Errorf_w "connection read failed: %w" reset) in
  (readLoop 1 reads start).2 = Some res ∧
  (∃ rd err, rd ∈ reads ∧ rd_err rd = Some err ∧
             res = read_error_result err (rd_ctxErr rd) ∧
             (∀ e, res = Some e →
                Unwrap e = Some err ∧ errors_Is_EOF err = false ∧
                errors_Is_ErrClosed err = false ∧ rd_ctxErr rd = false)) ∧
  Forall (λ rd : ReadEvent dyn, rd_err rd = None) [mkRead (ping_line ++ [x0a]) None false] ∧
  (readLoop 1 [mkRead (ping_line ++ [x0a]) None false] start).2 = None.
Proof.
  intros reset reads res.
  assert (Hres : (readLoop 1 reads start).2 = Some res) by done.
  assert (Hall : Forall (λ rd : ReadEvent dyn, rd_err rd = None)
                   [mkRead (ping_line ++ [x0a]) None false])
    by (by apply Forall_singleton).
  split; [exact Hres|]. split.
  - exact (proj1 (readLoop_returns_only_on_read_error 1 reads start) res Hres).
  - split; [exact Hall|].
    exact (proj2 (readLoop_returns_only_on_read_error 1 _ start) Hall).
Defined.

Lemma unknown_method_is_answered_witness :
  let req := mkRequest 3 "nope" (bytes "null") in
  let enc :=
    bytes "{'id':3,'error':{'code':-32601,'message':'method not found: \'nope\''}}" in
  json_Unmarshal_Request nope_line = Ok req ∧
  req_ID req ≠ 0%Z ∧
  handlers (listener start) !! req_Method req = None ∧
  broken (conn start) = None ∧
  sent (conn (handleRequest 1 nope_line start).1) = sent (conn start) ++ [frame enc] ∧
  goroutines (handleRequest 1 nope_line start).1 = goroutines start.
Proof.
  intros req enc.
  assert (Hdec : json_Unmarshal_Request nope_line = Ok req) by done.
  assert (Hid : req_ID req ≠ 0%Z) by done.
  assert (Hh : handlers (listener start) !! req_Method req = None) by done.
  assert (Hopen : broken (conn start) = None) by done.
  split; [exact Hdec|]. split; [exact Hid|]. split; [exact Hh|]. split; [exact Hopen|].
  destruct (unknown_method_is_answered 1 nope_line req start Hdec Hid Hh)
    as (_ & Hsent & _ & Hg & _).
  split; [exact (Hsent enc eq_refl Hopen)|exact Hg].
Defined.

Lemma known_method_is_registered_and_started_witness :
  let req := mkRequest 1 "ping" (bytes "null") in
  json_Unmarshal_Request ping_line = Ok req ∧
  req_ID req ≠ 0%Z ∧
  handlers (listener start) !! req_Method req = Some ping ∧
  goroutines (handleRequest 1 ping_line start).1
  = goroutines start ++ [mkTask 1 req ping (next_ctx start) (next_ctx start)].
Proof.
  intros req.
  assert (Hdec : json_Unmarshal_Request ping_line = Ok req) by done.
  assert (Hid : req_ID req ≠ 0%Z) by done.
  assert (Hh : handlers (listener start) !! req_Method req = Some ping) by done.
  split; [exact Hdec|]. split; [exact Hid|]. split; [exact Hh|].
  exact (proj1 (proj2 (proj2 (known_method_is_registered_and_started 1 ping_line req
                                ping start Hdec Hid Hh)))).
Defined.

Lemma notification_with_undecodable_params_witness :
  let req := mkRequest 0 "$/cancelRequest" (bytes "'x'") in
  let err : GoError dyn := ErrOpaque "cannot unmarshal into Go value of type int" in
  let enc :=
    bytes ("{'id':0,'error':{'code':-32602,'message':'cannot read params: "
           +:+ "cannot unmarshal into Go value of type int'}}") in
  json_Unmarshal_Request (GoLib:=lib2) cancel_x_line = Ok req ∧
  json_Unmarshal_int (GoLib:=lib2) (req_Params req) = Fail err ∧
  broken (conn pinged) = None ∧
  sent (conn (handleRequest (GoLib0:=lib2) 1 cancel_x_line pinged).1)
  = sent (conn pinged) ++ [frame enc] ∧
  listener (handleRequest (GoLib0:=lib2) 1 cancel_x_line pinged).1 = listener pinged.
Proof.
  intros req err enc.
  assert (Hdec : json_Unmarshal_Request (GoLib:=lib2) cancel_x_line = Ok req) by done.
  assert (Hp : json_Unmarshal_int (GoLib:=lib2) (req_Params req) = Fail err) by done.
  assert (Hopen : broken (conn pinged) = None) by done.
  split; [exact Hdec|]. split; [exact Hp|]. split; [exact Hopen|].
  destruct (notification_with_undecodable_params (GoLib0:=lib2) 1 cancel_x_line req
              err pinged Hdec eq_refl eq_refl Hp) as (_ & Hsent & Hl).
  split; [exact (Hsent enc eq_refl Hopen)|exact Hl].
Defined.

Lemma cancel_of_unknown_id_changes_nothing_witness :
  let req := mkRequest 0 "$/cancelRequest" (bytes "9") in
  json_Unmarshal_Request (GoLib:=lib2) cancel9_line = Ok req ∧
  json_Unmarshal_int (GoLib:=lib2) (req_Params req) = Ok 9%Z ∧
  m (canceler (listener pinged)) !! 9%Z = None ∧
  handleRequest (GoLib0:=lib2) 1 cancel9_line pinged = (pinged, None).
Proof.
  intros req.
  assert (Hdec : json_Unmarshal_Request (GoLib:=lib2) cancel9_line = Ok req) by done.
  assert (Hp : json_Unmarshal_int (GoLib:=lib2) (req_Params req) = Ok 9%Z) by done.
  assert (Hn : 9%Z ≠ 0%Z) by done.
  assert (Habs : m (canceler (listener pinged)) !! 9%Z = None) by done.
  split; [exact Hdec|]. split; [exact Hp|]. split; [exact Habs|].
  exact (cancel_of_unknown_id_changes_nothing (GoLib0:=lib2) 1 cancel9_line req 9%Z
           pinged Hdec eq_refl eq_refl Hp Hn Habs).
Defined.

Lemma blank_lines_are_skipped_witness :
  let blanks : list (ReadEvent dyn) :=
    [mkRead [x0a] None false; mkRead [x20; x09; x0d; x0a] None false] in
  let rest := [mkRead (ping_line ++ [x0a]) None false] in
  Forall blank_read blanks ∧
  readLoop 1 (blanks ++ rest) start = readLoop 1 rest start.
Proof.
  intros blanks rest.
  assert (Hb : Forall blank_read blanks).
  { repeat apply Forall_cons_2; [| |apply Forall_nil_2];
      (split; [done|split; [simpl; lia|done]]). }
  split; [exact Hb|].
  exact (blank_lines_are_skipped 1 blanks rest start Hb).
Defined.

Lemma ListenStream_return_cancels_everything_witness :
  let reads : list (ReadEvent dyn) :=
    [mkRead (ping_line ++ [x0a]) None false; mkRead [] (Some ErrEOF) false] in
  let loop := readLoop (next_ctx idle) reads (WithCancel 0 idle).2 in
  let st' := (ListenStream 0 reads idle).1 in
  loop.2 ≠ None ∧
  m (canceler (listener st')) = ∅ ∧
  (∀ f, times f (fired (canceler (listener st'))) = held f (canceler (listener loop.1))) ∧
  released st' = released loop.1 ++ [next_ctx idle] ∧
  conn st' = conn loop.1 ∧
  goroutines st' = goroutines loop.1.
Proof.
  intros reads loop st'.
  assert (Hret : loop.2 ≠ None) by done.
  split; [exact Hret|].
  exact (proj1 (proj2 (ListenStream_return_cancels_everything 0 reads idle)) Hret).
Defined.

Lemma line_with_read_error_is_handled_first_witness :
  TrimSpace ping_line ≠ [] ∧
  readLoop 1 [mkRead ping_line (Some ErrEOF) false] start
  = ((handleRequest 1 (TrimSpace ping_line) start).1,
     Some (read_error_result (ErrEOF : GoError dyn) false)).
Proof.
  assert (Hne : TrimSpace ping_line ≠ []) by done.
  split; [exact Hne|].
  exact (line_with_read_error_is_handled_first 1 ping_line ErrEOF false [] start Hne).
Defined.

Lemma service_knows_one_method_witness :
  let req := mkRequest 7 "ping" (bytes "null") in
  let enc :=
    bytes "{'id':7,'error':{'code':-32601,'message':'method not found: \'ping\''}}" in
  handlers (listener serving)
  = handlers (Service_Listener (GoLib0:=lib2) (JSONType0:=envelope_json)
                (Boxed0:=response_boxed) wasm_service) ∧
  json_Unmarshal_Request (GoLib:=lib2) ping7_line = Ok req ∧
  req_ID req ≠ 0%Z ∧
  req_Method req ≠ "goPackageDriver/query" ∧
  broken (conn serving) = None ∧
  sent (conn (handleRequest (GoLib0:=lib2) 1 ping7_line serving).1)
  = sent (conn serving) ++ [frame enc] ∧
  goroutines (handleRequest (GoLib0:=lib2) 1 ping7_line serving).1 = goroutines serving.
Proof.
  intros req enc.
  assert (Hhs : handlers (listener serving)
                = handlers (Service_Listener (GoLib0:=lib2) (JSONType0:=envelope_json)
                              (Boxed0:=response_boxed) wasm_service)) by done.
  assert (Hdec : json_Unmarshal_Request (GoLib:=lib2) ping7_line = Ok req) by done.
  assert (Hid : req_ID req ≠ 0%Z) by done.
  assert (Hm : req_Method req ≠ "goPackageDriver/query") by done.
  assert (Hopen : broken (conn serving) = None) by done.
  split; [exact Hhs|]. split; [exact Hdec|]. split; [exact Hid|]. split; [exact Hm|].
  split; [exact Hopen|].
  destruct (service_knows_one_method (GoLib0:=lib2) (JSONType0:=envelope_json)
              (Boxed0:=response_boxed) wasm_service 1 ping7_line req serving
              Hhs Hdec Hid Hm) as (_ & Hsent & Hg).
  split; [exact (Hsent enc eq_refl Hopen)|exact Hg].
Defined.


Lemma BuildRuntimeInfo_reads_the_minor_version_witness :
  ("24" ≠ EmptyString ∧ all_digits "24" = true ∧ no_digit_ahead ".3" = true ∧
   (decimal_value "24" < 2 ^ (64 - 1))%Z) ∧
  BuildRuntimeInfo (dyn:=dyn) 64 ("go1." +:+ "24" +:+ ".3") "gc" "wasm"
  = (mkRuntimeInfo (decimal_value "24") "gc" "wasm", None).
Proof.
  assert (H1 : "24"%string ≠ EmptyString) by done.
  assert (H2 : all_digits "24" = true) by done.
  assert (H3 : no_digit_ahead ".3" = true) by done.
  assert (H4 : (decimal_value "24" < 2 ^ (64 - 1))%Z) by done.
  split; [done|].
  exact (BuildRuntimeInfo_reads_the_minor_version 64 "24" ".3" "gc" "wasm" H1 H2 H3 H4).
Defined.

Lemma BuildRuntimeInfo_rejects_a_number_too_large_witness :
  let ds := "9223372036854775808"%string in
  (ds ≠ EmptyString ∧ all_digits ds = true ∧ no_digit_ahead "" = true ∧
   (2 ^ (64 - 1) ≤ decimal_value ds)%Z) ∧
  (BuildRuntimeInfo (dyn:=dyn) 64 ("go1." +:+ ds +:+ "") "gc" "wasm").1 = zero_RuntimeInfo.
Proof.
  intros ds.
  assert (H1 : ds ≠ EmptyString) by done.
  assert (H2 : all_digits ds = true) by done.
  assert (H3 : no_digit_ahead "" = true) by done.
  assert (H4 : (2 ^ (64 - 1) ≤ decimal_value ds)%Z) by done.
  split; [done|].
  by rewrite (BuildRuntimeInfo_rejects_a_number_too_large 64 ds "" "gc" "wasm" H1 H2 H3 H4).
Defined.

Lemma BuildRuntimeInfo_rejects_other_versions_witness :
  let rv := "devel +5c6a8a9 Tue Apr 1"%string in
  has_newline rv = false ∧
  (∀ rest, rv = "go1." +:+ rest → no_digit_ahead rest = true) ∧
  (BuildRuntimeInfo (dyn:=dyn) 64 rv "gc" "wasm").1 = zero_RuntimeInfo.
Proof.
  intros rv.
  assert (H1 : has_newline rv = false) by done.
  assert (H2 : ∀ rest, rv = "go1." +:+ rest → no_digit_ahead rest = true) by done.
  split; [exact H1|]. split; [exact H2|].
  by rewrite (BuildRuntimeInfo_rejects_other_versions 64 rv "gc" "wasm" H1 H2).
Defined.

Lemma BuildRuntimeInfo_sound_witness :
  let rv := "go1.24.3"%string in
  (BuildRuntimeInfo (dyn:=dyn) 64 rv "gc" "wasm").2 = None ∧
  ∃ pre ds rest,
    rv = pre +:+ "go1." +:+ ds +:+ rest ∧
    (pre = EmptyString ∨ ∃ p, pre = p +:+ String "010" EmptyString) ∧
    ds ≠ EmptyString ∧ all_digits ds = true ∧ no_digit_ahead rest = true ∧
    (0 ≤ decimal_value ds < 2 ^ (64 - 1))%Z ∧
    (BuildRuntimeInfo (dyn:=dyn) 64 rv "gc" "wasm").1
    = mkRuntimeInfo (decimal_value ds) "gc" "wasm".
Proof.
  intros rv.
  assert (Hok : (BuildRuntimeInfo (dyn:=dyn) 64 rv "gc" "wasm").2 = None) by done.
  split; [exact Hok|].
  exact (proj1 (BuildRuntimeInfo_sound 64 rv "gc" "wasm") Hok).
Defined.

(** The minor version is found on a later line too, and a version of a
    development build has none. *)
Example BuildRuntimeInfo_on_sample_versions :
  BuildRuntimeInfo (dyn:=dyn) 64 "go1.007" "gc" "amd64"
  = (mkRuntimeInfo 7 "gc" "amd64", None) ∧
  (BuildRuntimeInfo (dyn:=dyn) 64 ("devel" +:+ String "010" "go1.25-abc") "gc" "wasm").1
  = mkRuntimeInfo 25 "gc" "wasm" ∧
  (BuildRuntimeInfo (dyn:=dyn) 64 " go1.25" "gc" "wasm").2 ≠ None.
Proof. repeat split; by vm_compute. Qed.

(** What the service of the sample writes for a query. *)
Example service_on_sample_query :
  let st1 := (handleRequest (GoLib0:=lib2) 1 query_line serving).1 in
  ∃ t, goroutines st1 = [t] ∧
    sent (conn (runTask (GoLib0:=lib2) t false st1))
    = [frame (bytes ("{'id':5,'result':{'NotHandled':true,'Compiler':'gc',"
                     +:+ "'Arch':'wasm','Packages':[],'GoVersion':24}}"))].
Proof. eexists. split; by vm_compute. Qed.

Lemma cancel_notification_calls_the_cancel_function_witness :
  let req := mkRequest 0 "$/cancelRequest" (bytes "1") in
  let st' := (handleRequest 1 cancel1_line pinged).1 in
  json_Unmarshal_Request cancel1_line = Ok req ∧
  json_Unmarshal_int (req_Params req) = Ok 1%Z ∧
  m (canceler (listener pinged)) !! 1%Z = Some 2 ∧
  fired (canceler (listener st')) = fired (canceler (listener pinged)) ++ [2] ∧
  handleRequest 1 cancel1_line st' = (st', None).
Proof.
  intros req st'.
  assert (Hdec : json_Unmarshal_Request cancel1_line = Ok req) by done.
  assert (Hp : json_Unmarshal_int (req_Params req) = Ok 1%Z) by done.
  assert (Hn : 1%Z ≠ 0%Z) by done.
  assert (Hl : m (canceler (listener pinged)) !! 1%Z = Some 2) by done.
  split; [exact Hdec|]. split; [exact Hp|]. split; [exact Hl|].
  pose proof (cancel_notification_calls_the_cancel_function 1 cancel1_line req 1%Z 2
                pinged Hdec eq_refl eq_refl Hp Hn Hl) as (_ & _ & Hf & _ & _ & Hagain).
  split; [exact Hf|exact Hagain].
Defined.

Lemma runTask_answers_what_the_handler_returned_witness :
  let t := mkTask 1 (mkRequest 1 "ping" (bytes "null")) ping 2 2 in
  let out := Some (Raw (js "{'pong':true}")) in
  task_handler t (task_reqCtx t) (req_Params (task_req t)) (world pinged)
  = (Returned out None, tt) ∧
  json_Marshal (mkResponse 1 out None) = Ok pong_text ∧
  broken (conn pinged) = None ∧
  sent (conn (runTask t false pinged)) = sent (conn pinged) ++ [frame pong_text].
Proof.
  intros t out.
  assert (Hrun : task_handler t (task_reqCtx t) (req_Params (task_req t)) (world pinged)
                 = (Returned out None, tt)) by done.
  assert (Henc : json_Marshal (mkResponse 1 out None) = Ok pong_text) by done.
  assert (Hopen : broken (conn pinged) = None) by done.
  split; [exact Hrun|]. split; [exact Henc|]. split; [exact Hopen|].
  exact (proj2 (proj2 (runTask_answers_what_the_handler_returned t pinged out None tt
                         Hrun)) pong_text Henc Hopen).
Defined.
